(** * python.d/python_modules/base.py: BaseService and UrlService

  A shallow embedding of the two prototype classes that netdata's
  python.d collectors derive from, and the properties of the scheduler
  loop, the protocol encoder and the chart derivation of UrlService. *)

From Stdlib Require Import ZArith List Bool Lia.
From Stdlib Require Import Strings.String Strings.Ascii Numbers.DecimalString.
From Stdlib Require Floats Uint63.
Import ListNotations.

Local Open Scope string_scope.
Local Open Scope Z_scope.

(** ** Python values and the two built-ins the module relies on *)

Module Py.

(** The arguments the encoder receives are documented as str or int
    (":param multiplier: int/str"), and a caller can pass None.  Floats are
    left out: their [str] is not a function this development defines. *)
Inductive value : Type :=
| VInt (z : Z)
| VStr (s : string)
| VNone.

(** Exceptions that the modelled code can raise. *)
Inductive exn : Type :=
| KeyError (key : string)
| TypeError
| ValueError.

(** Outcome of a fallible expression. *)
Inductive result (A : Type) : Type :=
| Ok (a : A)
| Err (e : exn).
Arguments Ok {A} a.
Arguments Err {A} e.

(** [str(n)] for an int. *)
Definition str_of_Z (z : Z) : string :=
  NilZero.string_of_int (Z.to_int z).

(** [str(p)] *)
Definition str (p : value) : string :=
  match p with
  | VInt z => str_of_Z z
  | VStr s => s
  | VNone => "None"
  end.

(** ASCII white space: the space and the characters from tab to carriage
    return. *)
Definition is_space (c : ascii) : bool :=
  let n := nat_of_ascii c in
  (Nat.eqb n 32 || (Nat.leb 9 n && Nat.leb n 13))%bool.

Fixpoint lstrip (s : string) : string :=
  match s with
  | String c s' => if is_space c then lstrip s' else s
  | EmptyString => EmptyString
  end.

(** The text of [s] up to its trailing white space. *)
Fixpoint rstrip (s : string) : string :=
  match s with
  | EmptyString => EmptyString
  | String c s' =>
      match rstrip s' with
      | EmptyString => if is_space c then EmptyString else String c EmptyString
      | r => String c r
      end
  end.

Definition digit_of (c : ascii) : option Z :=
  let n := nat_of_ascii c in
  if (Nat.leb 48 n && Nat.leb n 57)%bool then Some (Z.of_nat n - 48) else None.

Fixpoint digits (acc : Z) (s : string) : option Z :=
  match s with
  | EmptyString => Some acc
  | String c s' =>
      match digit_of c with
      | Some d => digits (10 * acc + d) s'
      | None => None
      end
  end.

Definition unsigned (s : string) : option Z :=
  match s with
  | EmptyString => None
  | _ => digits 0 s
  end.

(** [int(s)] for an ASCII str, base 10: surrounding white space is dropped,
    one sign is allowed, at least one digit must follow. *)
Definition int_of_str (s : string) : option Z :=
  match rstrip (lstrip s) with
  | String "-" r => option_map Z.opp (unsigned r)
  | String "+" r => unsigned r
  | r => unsigned r
  end.

(** [int(p)]: a str that is not a number raises ValueError, None raises
    TypeError. *)
Definition int (p : value) : result Z :=
  match p with
  | VInt z => Ok z
  | VStr s => match int_of_str s with Some z => Ok z | None => Err ValueError end
  | VNone => Err TypeError
  end.

(** [' ' in p] *)
Fixpoint has_space (s : string) : bool :=
  match s with
  | EmptyString => false
  | String c s' => (Ascii.eqb c " " || has_space s')%bool
  end.

(** [x in xs] for a list (or tuple) of str. *)
Definition mem (x : string) (xs : list string) : bool :=
  existsb (String.eqb x) xs.

End Py.

(** ** The logging channel *)

Module Msg.

Inductive severity : Type := Debug | Info | Error.

(** Modelled from the spec: the [msg] module is imported by base.py but is
    not among the sources; the spec treats it as an opaque logging channel
    with debug, info and error severities.  A message is recorded with its
    severity and the [str] of each of its parameters. *)
Record entry : Type := { sev : severity; text : list string }.

(** Modelled from the spec: [msg.error], which adds one message of
    severity error to the channel. *)
Definition error (log : list entry) (params : list string) : list entry :=
  log ++ [{| sev := Error; text := params |}].

(** Modelled from the spec: [msg.debug], which adds one message of
    severity debug to the channel. *)
Definition debug (log : list entry) (params : list string) : list entry :=
  log ++ [{| sev := Debug; text := params |}].

(** The error messages of a log, oldest first. *)
Definition errors (log : list entry) : list (list string) :=
  map text (filter (fun e => match sev e with Error => true | _ => false end) log).

End Msg.

(** ** BaseService *)

Module Base.
Import Py.

Definition nl : string := String (ascii_of_nat 10) EmptyString.

Record Timetable : Type := { last : Z; next : Z; freq : Z }.

(** The attributes of a BaseService object that its methods read or write,
    together with the two process-wide channels they write to: [stdout]
    ([print], [sys.stdout.write]) and [log] (the [msg] module); the two hold
    what the methods of this class write, not what the [update] of a
    subclass writes on its own.  Time stamps are the readings of
    [time.time()] counted in microseconds; [freq], [update_every] are
    seconds. *)
Record BaseService : Type := {
  data_stream : string;
  retries : Z;
  retries_left : Z;
  priority : Z;
  update_every : Z;
  chart_name : string;
  dimensions : list string;
  charts : list string;
  timetable : Timetable;
  stdout : string;
  log : list Msg.entry
}.

Definition set_data_stream (s : BaseService) (v : string) : BaseService :=
  {| data_stream := v; retries := retries s; retries_left := retries_left s;
     priority := priority s; update_every := update_every s;
     chart_name := chart_name s; dimensions := dimensions s; charts := charts s;
     timetable := timetable s; stdout := stdout s; log := log s |}.

Definition set_retries (s : BaseService) (v : Z) : BaseService :=
  {| data_stream := data_stream s; retries := v; retries_left := retries_left s;
     priority := priority s; update_every := update_every s;
     chart_name := chart_name s; dimensions := dimensions s; charts := charts s;
     timetable := timetable s; stdout := stdout s; log := log s |}.

Definition set_retries_left (s : BaseService) (v : Z) : BaseService :=
  {| data_stream := data_stream s; retries := retries s; retries_left := v;
     priority := priority s; update_every := update_every s;
     chart_name := chart_name s; dimensions := dimensions s; charts := charts s;
     timetable := timetable s; stdout := stdout s; log := log s |}.

Definition set_dimensions (s : BaseService) (v : list string) : BaseService :=
  {| data_stream := data_stream s; retries := retries s; retries_left := retries_left s;
     priority := priority s; update_every := update_every s;
     chart_name := chart_name s; dimensions := v; charts := charts s;
     timetable := timetable s; stdout := stdout s; log := log s |}.

Definition set_charts (s : BaseService) (v : list string) : BaseService :=
  {| data_stream := data_stream s; retries := retries s; retries_left := retries_left s;
     priority := priority s; update_every := update_every s;
     chart_name := chart_name s; dimensions := dimensions s; charts := v;
     timetable := timetable s; stdout := stdout s; log := log s |}.

Definition set_timetable (s : BaseService) (v : Timetable) : BaseService :=
  {| data_stream := data_stream s; retries := retries s; retries_left := retries_left s;
     priority := priority s; update_every := update_every s;
     chart_name := chart_name s; dimensions := dimensions s; charts := charts s;
     timetable := v; stdout := stdout s; log := log s |}.

Definition set_stdout (s : BaseService) (v : string) : BaseService :=
  {| data_stream := data_stream s; retries := retries s; retries_left := retries_left s;
     priority := priority s; update_every := update_every s;
     chart_name := chart_name s; dimensions := dimensions s; charts := charts s;
     timetable := timetable s; stdout := v; log := log s |}.

Definition set_log (s : BaseService) (v : list Msg.entry) : BaseService :=
  {| data_stream := data_stream s; retries := retries s; retries_left := retries_left s;
     priority := priority s; update_every := update_every s;
     chart_name := chart_name s; dimensions := dimensions s; charts := charts s;
     timetable := timetable s; stdout := stdout s; log := v |}.

(** What a method call leaves behind: the value it returns, or the
    exception that leaves it, and the object as it is then. *)
Inductive outcome (A : Type) : Type :=
| Returns (a : A) (s : BaseService)
| Raises (e : exn) (s : BaseService).
Arguments Returns {A} a s.
Arguments Raises {A} e s.

Definition after {A : Type} (o : outcome A) : BaseService :=
  match o with Returns _ s => s | Raises _ s => s end.

(** [self.error]: [msg.error] of [self.chart_name] followed by the parameters. *)
Definition error (s : BaseService) (params : list string) : BaseService :=
  set_log s (Msg.error (log s) (chart_name s :: params)).

(** [self.debug] *)
Definition debug (s : BaseService) (params : list string) : BaseService :=
  set_log s (Msg.debug (log s) (chart_name s :: params)).

(** *** The protocol encoder *)

(** The body of the loop of [_line] for one parameter: the text that is
    appended after the separating space. *)
Definition field (p : value) : string :=
  let p := str p in
  let p := if (String.length p =? 0)%nat then "''" else p in
  let p := if has_space p then "'" ++ p ++ "'" else p in
  p.

Fixpoint line_params (ds : string) (params : list value) : string :=
  match params with
  | [] => ds
  | p :: rest => line_params (ds ++ " " ++ field p) rest
  end.

Definition _line (s : BaseService) (instruction : string) (params : list value)
  : BaseService :=
  let ds := data_stream s ++ instruction in
  let ds := line_params ds params in
  set_data_stream s (ds ++ nl).

Definition chart (s : BaseService)
    (type_id name title units family category charttype : string)
    (priority update_every : value) : BaseService :=
  let s := set_charts s (charts s ++ [type_id]) in
  _line s "CHART"
    [VStr type_id; VStr name; VStr title; VStr units; VStr family;
     VStr category; VStr charttype; priority; update_every].

(** [try: int(p) / except TypeError: ...]: the call passes, or the handler
    runs, or another exception leaves the statement. *)
Inductive tried : Type := Passed | Caught | Escaped (e : exn).

Definition try_int (p : value) : tried :=
  match int p with
  | Ok _ => Passed
  | Err TypeError => Caught
  | Err e => Escaped e
  end.

Definition algorithms : list string :=
  ["absolute"; "incremental"; "percentage-of-absolute-row";
   "percentage-of-incremental-row"].

Definition dimension (s : BaseService) (id : string) (name : option string)
    (algorithm : string) (multiplier divisor : value) (hidden : bool)
  : outcome unit :=
  match try_int multiplier with
  | Escaped e => Raises e s
  | tm =>
    let '(s, multiplier) :=
      match tm with
      | Caught =>
          (error s ["malformed dimension: multiplier is not a number:"; str multiplier],
           VInt 1)
      | _ => (s, multiplier)
      end in
    match try_int divisor with
    | Escaped e => Raises e s
    | td =>
      let '(s, divisor) :=
        match td with
        | Caught =>
            (error s ["malformed dimension: divisor is not a number:"; str divisor],
             VInt 1)
        | _ => (s, divisor)
        end in
      let name := match name with None => id | Some n => n end in
      let algorithm := if negb (mem algorithm algorithms) then "absolute" else algorithm in
      let s := set_dimensions s (dimensions s ++ [id]) in
      if hidden then
        Returns tt (_line s "DIMENSION"
                      [VStr id; VStr name; VStr algorithm; multiplier; divisor; VStr "hidden"])
      else
        Returns tt (_line s "DIMENSION"
                      [VStr id; VStr name; VStr algorithm; multiplier; divisor])
    end
  end.

Definition begin (s : BaseService) (type_id : string) (microseconds : value)
  : outcome bool :=
  if negb (mem type_id (charts s)) then
    Returns false (error s ["wrong chart type_id:"; type_id])
  else
    match try_int microseconds with
    | Escaped e => Raises e s
    | Caught =>
        let s := error s ["malformed begin statement: microseconds are not a number:";
                          str microseconds] in
        Returns true (_line s "BEGIN" [VStr type_id; VStr ""])
    | Passed => Returns true (_line s "BEGIN" [VStr type_id; microseconds])
    end.

Definition set (s : BaseService) (id : string) (v : value) : outcome bool :=
  if negb (mem id (dimensions s)) then
    Returns false (error s ["wrong dimension id:"; id])
  else
    match int v with
    | Ok z => Returns true (_line s "SET" [VStr id; VStr "="; VStr (str_of_Z z)])
    | Err TypeError => Returns false (error s ["cannot set non-numeric value:"; str v])
    | Err e => Raises e s
    end.

Definition end_ (s : BaseService) : BaseService := _line s "END" [].

(** [print(self.data_stream)], then the buffer is emptied. *)
Definition commit (s : BaseService) : BaseService :=
  set_data_stream (set_stdout s (stdout s ++ data_stream s ++ nl)) "".

(** *** The scheduler *)

Definition usec : Z := 1000000.

(** An int as a float (exact up to 2^53, which the clock readings, the
    microseconds since 1970, stay below). *)
Definition float_of_Z (z : Z) : PrimFloat.float :=
  if z <? 0 then PrimFloat.opp (PrimFloat.of_uint63 (Uint63.of_Z (- z)))
  else PrimFloat.of_uint63 (Uint63.of_Z z).

(** The float that [time.time()] returns when the clock reads [t]
    microseconds: seconds, in binary64. *)
Definition seconds (t : Z) : PrimFloat.float :=
  PrimFloat.div (float_of_Z t) (float_of_Z usec).

(** [int(x)] for a float: truncation toward zero (the products below are
    finite). *)
Definition int_of_float (x : PrimFloat.float) : Z :=
  match FloatOps.Prim2SF x with
  | SpecFloat.S754_finite sign m e =>
      let v := if 0 <=? e then Z.pos m * 2 ^ e else Z.pos m / 2 ^ (- e) in
      if sign then - v else v
  | _ => 0
  end.

(** [int((a - b) * k)] for two clock readings [a] and [b]: the difference
    and the product are those of the floats. *)
Definition elapsed (a b : Z) (k : Z) : Z :=
  int_of_float
    (PrimFloat.mul (PrimFloat.sub (seconds a) (seconds b)) (float_of_Z k)).

(** [now - (now % freq) + freq], for [now] in microseconds and [freq] in
    seconds.  Python's [%] takes the sign of the divisor, as [Z.modulo]
    does, and raises ZeroDivisionError for a zero divisor. *)
Definition next_slot (now freq : Z) : option Z :=
  if freq =? 0 then None
  else Some (now - (now mod (freq * usec)) + freq * usec).

(** [create_timetable(freq)] at the clock reading [now]; [None] when the
    modulo raises. *)
Definition create_timetable (s : BaseService) (freq : option Z) (now : Z)
  : option BaseService :=
  let freq := match freq with None => update_every s | Some f => f end in
  match next_slot now freq with
  | None => None
  | Some n => Some (set_timetable s {| last := now; next := n; freq := freq |})
  end.

(** What [self.update(since_last)] does is up to the subclass: it returns
    a true or a false value, or an exception (an instance of Exception)
    leaves it; [what] is the [str] of the exception. *)
Inductive update_result : Type :=
| Success
| Failure
| Raised (what : string).

(** What one iteration of the loop of [run] receives from outside: the clock
    read at the start of [_run_once], the result of [update] if it is
    called, the clock read after [update], and the clock read in the
    argument of [time.sleep] after a successful iteration. *)
Record cycle : Type := {
  t_start : Z;
  upd : update_result;
  t_end : Z;
  t_sleep : Z
}.

Inductive run_once_result : Type :=
| Status (b : bool) (s : BaseService)
| Exception (what : string) (s : BaseService).

Definition _run_once (s : BaseService) (c : cycle) : run_once_result :=
  let tt := timetable s in
  let t_start := t_start c in
  if next tt >? t_start then
    Status true
      (set_log s (Msg.debug (log s)
         [chart_name s ++ " will be run in " ++
          str_of_Z (elapsed (next tt) t_start 1000) ++ " ms"]))
  else
    let since_last := elapsed t_start (last tt) 1000000 in
    let s := set_log s (Msg.debug (log s)
               [chart_name s ++
                " ready to run, after " ++ str_of_Z (elapsed t_start (last tt) 1000) ++
                " ms (update_every: " ++ str_of_Z (freq tt * 1000) ++
                " ms, latency: " ++ str_of_Z (elapsed t_start (next tt) 1000) ++ " ms)"]) in
    match upd c with
    | Raised what => Exception what s
    | Failure => Status false s
    | Success =>
        let t_end := t_end c in
        match next_slot t_end (freq tt) with
        | None => Exception "float modulo" s
        | Some n =>
            let s := set_timetable s {| last := last tt; next := n; freq := freq tt |} in
            let run_time := str_of_Z (elapsed t_end t_start 1000) in
            let run_time_chart :=
              "BEGIN netdata.plugin_pythond_" ++ chart_name s ++ " " ++
              str_of_Z since_last ++ nl in
            let run_time_chart := run_time_chart ++ "SET run_time = " ++ run_time ++ nl in
            let run_time_chart := run_time_chart ++ "END" ++ nl in
            let s := set_stdout s (stdout s ++ run_time_chart) in
            let s := set_log s (Msg.debug (log s)
                       [chart_name s ++ " updated in " ++ run_time ++ " ms"]) in
            let tt := timetable s in
            Status true
              (set_timetable s {| last := t_start; next := next tt; freq := freq tt |})
        end
    end.

(** Where the thread is after some iterations of [while True]: still in
    the loop, returned from [run], or left by an exception that [run] does
    not catch ([time.sleep] refuses a negative length). *)
Inductive thread : Type :=
| Looping (s : BaseService)
| Exited (s : BaseService)
| Crashed (s : BaseService).

(** One iteration of the loop of [run]. *)
Definition iteration (s : BaseService) (c : cycle) : thread :=
  match _run_once s c with
  | Exception what s =>
      Exited (set_log s (Msg.error (log s) ["Something wrong: " ++ what]))
  | Status true s =>
      if next (timetable s) - t_sleep c <? 0 then Crashed s
      else Looping (set_retries_left s (retries s))
  | Status false s =>
      let s := set_retries s (retries s - 1) in
      if retries_left s <=? 0 then
        Exited (set_log s (Msg.error (log s) ["no more retries. Exiting"]))
      else if freq (timetable s) <? 0 then Crashed s
      else Looping s
  end.

Fixpoint loop (s : BaseService) (script : list cycle) : thread :=
  match script with
  | [] => Looping s
  | c :: rest =>
      match iteration s c with
      | Looping s' => loop s' rest
      | stopped => stopped
      end
  end.

(** [run()]: [t0] is the clock read before the loop is entered. *)
Definition run (s : BaseService) (t0 : Z) (script : list cycle) : thread :=
  let tt := timetable s in
  loop (set_timetable s {| last := t0; next := next tt; freq := freq tt |}) script.

(** [__init__] followed by [_extract_base_config] and [create_timetable],
    for a configuration with the three required keys; [None] when
    [create_timetable] raises. *)
Definition init (update_every priority retries : Z) (now : Z) : option BaseService :=
  create_timetable
    {| data_stream := ""; retries := retries; retries_left := retries;
       priority := priority; update_every := update_every; chart_name := "";
       dimensions := []; charts := [];
       timetable := {| last := 0; next := 0; freq := 0 |};
       stdout := ""; log := [] |}
    None now.

End Base.

(** ** UrlService *)

Module Url.
Import Py.

Definition nl : string := Base.nl.

(** A dict with str keys, in insertion order (the order in which
    [items()] yields its entries). *)
Definition dict (V : Type) : Type := list (string * V).

Fixpoint lookup {V : Type} (k : string) (d : dict V) : option V :=
  match d with
  | [] => None
  | (k', v) :: rest => if String.eqb k k' then Some v else lookup k rest
  end.

(** [k in d] *)
Definition has_key {V : Type} (k : string) (d : dict V) : bool :=
  match lookup k d with Some _ => true | None => false end.

(** [d[k] = v]: an existing key keeps its place. *)
Fixpoint dict_set {V : Type} (k : string) (v : V) (d : dict V) : dict V :=
  match d with
  | [] => [(k, v)]
  | (k', v') :: rest =>
      if String.eqb k k' then (k', v) :: rest else (k', v') :: dict_set k v rest
  end.

(** [d[k].append(x)], for a key that is present. *)
Fixpoint dict_append {V : Type} (k : string) (x : V) (d : dict (list V))
  : dict (list V) :=
  match d with
  | [] => []
  | (k', l) :: rest =>
      if String.eqb k k' then (k', (l ++ [x])%list) :: rest
      else (k', l) :: dict_append k x rest
  end.

(** One entry of ['lines']. *)
Record Line : Type := { line_name : string; line_options : string }.

(** One value of the [charts] dict. *)
Record Chart : Type := { options : string; lines : list Line }.

(** [module] is [self.__module__]; [name] is the str that [check()] leaves
    in [self.name]; [stdout] is the text printed so far. *)
Record UrlService : Type := {
  module : string;
  name : string;
  priority : Z;
  update_every : Z;
  charts : dict Chart;
  order : list string;
  definitions : dict (list string);
  stdout : string
}.

Definition set_definitions (s : UrlService) (v : dict (list string)) : UrlService :=
  {| module := module s; name := name s; priority := priority s;
     update_every := update_every s; charts := charts s; order := order s;
     definitions := v; stdout := stdout s |}.

(** [print(text)] *)
Definition print (s : UrlService) (text : string) : UrlService :=
  {| module := module s; name := name s; priority := priority s;
     update_every := update_every s; charts := charts s; order := order s;
     definitions := definitions s; stdout := stdout s ++ text ++ nl |}.

(** What [_formatted_data()] returns: a dict of numbers, or None. *)
Definition dataset : Type := option (dict Z).

Inductive outcome : Type :=
| Returns (b : bool) (s : UrlService)
| Raises (e : exn) (s : UrlService).

Definition after (o : outcome) : UrlService :=
  match o with Returns _ s => s | Raises _ s => s end.

(** The first loop of [create]. *)
Fixpoint build_definitions (table : dict Chart) (names : list string)
    (defs : dict (list string)) : dict (list string) :=
  match names with
  | [] => defs
  | n :: rest =>
      match lookup n table with
      | None => build_definitions table rest defs
      | Some c =>
          let defs := dict_set n [] defs in
          let defs :=
            fold_left (fun d line => dict_append n (line_name line) d) (lines c) defs in
          build_definitions table rest defs
      end
  end.

(** The body of the inner loop of the second loop of [create]. *)
Definition add_dimension (data : dict Z) (content : string) (line : Line) : string :=
  if has_key (line_name line) data then
    content ++ nl ++ "DIMENSION " ++ line_name line ++ " " ++ line_options line
  else content.

Definition chart_content (data : dict Z) (ls : list Line) : string :=
  fold_left (add_dimension data) ls "".

(** The second loop of [create]: [self.charts[name]] raises KeyError for a
    name that is not in the table. *)
Fixpoint emit_charts (s : UrlService) (data : dict Z) (names : list string)
    (idx : Z) (data_stream : string) : result (Z * string) :=
  match names with
  | [] => Ok (idx, data_stream)
  | n :: rest =>
      match lookup n (charts s) with
      | None => Err (KeyError n)
      | Some c =>
          let header :=
            "CHART " ++ module s ++ "_" ++ name s ++ "." ++ n ++ " " ++
            options c ++ " " ++ str_of_Z (priority s + idx) ++ " " ++
            str_of_Z (update_every s) in
          let content := chart_content data (lines c) in
          if (0 <? String.length content)%nat then
            emit_charts s data rest (idx + 1) (data_stream ++ header ++ content ++ nl)
          else
            emit_charts s data rest idx data_stream
      end
  end.

Definition create (s : UrlService) (data : dataset) : outcome :=
  let s := set_definitions s (build_definitions (charts s) (order s) (definitions s)) in
  match data with
  | None => Returns false s
  | Some d =>
      match emit_charts s d (order s) 0 "" with
      | Err e => Raises e s
      | Ok (idx, data_stream) =>
          let s := print s data_stream in
          if idx =? 0 then Returns false s else Returns true s
      end
  end.

(** The body of the inner loop of [update]: a KeyError of [data[dim]] is
    passed over. *)
Definition add_value (data : dict Z) (c : string) (dim : string) : string :=
  match lookup dim data with
  | Some v => c ++ nl ++ "SET " ++ dim ++ " = " ++ str_of_Z v
  | None => c
  end.

Definition chart_values (data : dict Z) (dims : list string) : string :=
  fold_left (add_value data) dims "".

(** The body of the loop of [update] for one entry of [definitions]. *)
Definition add_block (s : UrlService) (interval : Z) (data : dict Z)
    (data_stream : string) (entry : string * list string) : string :=
  let '(chart, dimensions) := entry in
  let header :=
    "BEGIN " ++ module s ++ "_" ++ name s ++ "." ++ chart ++ " " ++ str_of_Z interval in
  let c := chart_values data dimensions in
  if negb (String.length c =? 0)%nat then
    data_stream ++ header ++ c ++ nl ++ "END" ++ nl
  else data_stream.

Definition update (s : UrlService) (interval : Z) (data : dataset) : outcome :=
  match data with
  | None => Returns false s
  | Some d =>
      let data_stream := fold_left (add_block s interval d) (definitions s) "" in
      Returns true (print s data_stream)
  end.

End Url.

(** ** Conditions on what the scheduler receives *)

Module Script.
Import Base.

(** A due iteration in which [update] returns a false value; [n] is the
    [next] of the timetable. *)
Definition failing_on_time (n : Z) (c : cycle) : Prop :=
  upd c = Failure /\ n <= t_start c.

(** Successful cycles, each started when due at [n] and finished (the
    clock read after [update], and the one read for [time.sleep]) before
    the slot of length [F] that starts at [n] is over. *)
Fixpoint on_time (n F : Z) (script : list cycle) : Prop :=
  match script with
  | [] => True
  | c :: rest =>
      upd c = Success /\ n <= t_start c /\ n <= t_end c < n + F /\
      t_sleep c <= n + F /\ on_time (n + F) F rest
  end.

(** Consecutive cycles in which [update] is called and returns a true
    value, however long each of them takes. *)
Fixpoint successful (s : BaseService) (script : list cycle) : Prop :=
  match script with
  | [] => True
  | c :: rest =>
      upd c = Success /\ next (timetable s) <= t_start c <= t_end c /\
      t_end c <= t_sleep c /\
      exists s', iteration s c = Looping s' /\ successful s' rest
  end.

End Script.

(** ** Inputs for the examples *)

Module Demo.
Import Py Base.

(** The object that [__init__] builds for update_every = 1,
    priority = 140000 and retries = 3 when the clock reads 0.3 s. *)
Definition service : BaseService :=
  {| data_stream := ""; retries := 3; retries_left := 3;
     priority := 140000; update_every := 1; chart_name := "";
     dimensions := []; charts := [];
     timetable := {| last := 300000; next := 1000000; freq := 1 |};
     stdout := ""; log := [] |}.

(** [update] returns False at clock [t]. *)
Definition failed (t : Z) : cycle :=
  {| t_start := t; upd := Failure; t_end := t; t_sleep := t |}.

(** [update] is called at clock [t] and returns True at clock [t']. *)
Definition succeeded (t t' : Z) : cycle :=
  {| t_start := t; upd := Success; t_end := t'; t_sleep := t' |}.

(** An exception leaves [update]. *)
Definition faulted (t : Z) (what : string) : cycle :=
  {| t_start := t; upd := Raised what; t_end := t; t_sleep := t |}.

(** [service] after [chart("cpu", ...)] and [dimension("user")]. *)
Definition registered : BaseService :=
  after (dimension
           (chart service "cpu" "" "" "percent" "cpu" "" "line" (VInt 1000) (VInt 1))
           "user" None "absolute" (VInt 1) (VInt 1) false).

(** A collector with one chart that declares the dimensions m1 and m2. *)
Definition collector : Url.UrlService :=
  {| Url.module := "example"; Url.name := "local";
     Url.priority := 60000; Url.update_every := 1;
     Url.charts :=
       [("requests",
         {| Url.options := "'' 'Requests' 'requests/s' requests example.requests line";
            Url.lines := [ {| Url.line_name := "m1"; Url.line_options := "first incremental 1 1" |};
                           {| Url.line_name := "m2"; Url.line_options := "second incremental 1 1" |} ] |})];
     Url.order := ["requests"];
     Url.definitions := [];
     Url.stdout := "" |}.

(** The same collector with a name in [order] that the table lacks. *)
Definition misordered : Url.UrlService :=
  {| Url.module := "example"; Url.name := "local";
     Url.priority := 60000; Url.update_every := 1;
     Url.charts := Url.charts collector;
     Url.order := ["requests"; "ghost"];
     Url.definitions := [];
     Url.stdout := "" |}.

End Demo.

(** ** What [dimension] makes of its arguments *)

Module Encoding.
Import Py Base.

(** The multiplier or divisor that reaches the DIMENSION statement. *)
Definition checked (p : value) : value :=
  match int p with
  | Err TypeError => VInt 1
  | _ => p
  end.

(** The error messages that [dimension] logs for the argument [what]. *)
Definition complaint (s : BaseService) (what : string) (p : value)
  : list (list string) :=
  match int p with
  | Err TypeError =>
      [[chart_name s; "malformed dimension: " ++ what ++ " is not a number:"; str p]]
  | _ => []
  end.

End Encoding.

(** ** The configuration that [__init__] consumes *)

Module Config.
Import Py Url.

(** The dict without the key [k] (a dict holds a key once). *)
Fixpoint remove {V : Type} (k : string) (d : dict V) : dict V :=
  match d with
  | [] => []
  | (k', v) :: rest =>
      if String.eqb k k' then remove k rest else (k', v) :: remove k rest
  end.

(** [d.pop(k)]: the value and the dict that is left, KeyError when the key
    is missing. *)
Definition pop {V : Type} (k : string) (d : dict V) : result (V * dict V) :=
  match lookup k d with
  | Some v => Ok (v, remove k d)
  | None => Err (KeyError k)
  end.

(** The attributes that [_extract_base_config] sets. *)
Record base_config : Type := {
  override_name : option value;
  update_every : Z;
  priority : Z;
  retries : Z;
  retries_left : Z;
  configuration : dict value
}.

(** [_extract_base_config(config)]: [override_name] is [None], as
    [__init__] leaves it, when the key is missing. *)
Definition _extract_base_config (config : dict value) : result base_config :=
  let '(override, config) :=
    match pop "override_name" config with
    | Ok (v, rest) => (Some v, rest)
    | Err _ => (None, config)
    end in
  match pop "update_every" config with
  | Err e => Err e
  | Ok (u, config) =>
  match int u with
  | Err e => Err e
  | Ok update_every =>
  match pop "priority" config with
  | Err e => Err e
  | Ok (p, config) =>
  match int p with
  | Err e => Err e
  | Ok priority =>
  match pop "retries" config with
  | Err e => Err e
  | Ok (r, config) =>
  match int r with
  | Err e => Err e
  | Ok retries =>
      Ok {| override_name := override; update_every := update_every;
            priority := priority; retries := retries; retries_left := retries;
            configuration := config |}
  end end end end end end.

(** The keys that [_extract_base_config] pops. *)
Definition consumed : list string :=
  ["override_name"; "update_every"; "priority"; "retries"].

End Config.

(** ** Relations between states of a service *)

Module Trace.
Import Py Base.

(** [s'] has the buffer and the registered ids of [s], possibly with more
    at the end, and the output and the scheduler's state of [s]. *)
Definition grows (s s' : BaseService) : Prop :=
  (exists t, data_stream s' = data_stream s ++ t) /\
  (exists l, charts s' = (charts s ++ l)%list) /\
  (exists l, dimensions s' = (dimensions s ++ l)%list) /\
  stdout s' = stdout s /\
  timetable s' = timetable s /\
  retries s' = retries s /\
  retries_left s' = retries_left s.

(** The state in which a thread is, whether it is still in the loop or
    not. *)
Definition state_of (t : thread) : BaseService :=
  match t with Looping s => s | Exited s => s | Crashed s => s end.

End Trace.

(** ** What [create] and [update] amount to *)

Module Derived.
Import Py Url.

(** One assignment per chart of [order] that is in the table:
    [definitions[name]] is the list of the names of its lines. *)
Definition assign_definitions (table : dict Chart) (names : list string)
    (defs : dict (list string)) : dict (list string) :=
  fold_left
    (fun d n =>
       match lookup n table with
       | Some c => dict_set n (map line_name (lines c)) d
       | None => d
       end)
    names defs.

(** A chart has a line whose name is a key of the dataset. *)
Definition matches (data : dict Z) (c : Chart) : bool :=
  existsb (fun line => has_key (line_name line) data) (lines c).

(** A name of [order] whose chart has a line in the dataset. *)
Definition some_chart_matches (s : UrlService) (data : dict Z) : bool :=
  existsb
    (fun n => match lookup n (charts s) with Some c => matches data c | None => false end)
    (order s).

End Derived.

(** ** UrlService as it is without a subclass *)

Module UrlBase.
Import Py Url.

(** [_formatted_data()] of UrlService itself: the empty dict. *)
Definition _formatted_data : dataset := Some [].

(** What [check()] leaves in [self.name]: 'local' for None and for the
    text "None", the [str] of the name otherwise. *)
Definition checked_name (name : value) : string :=
  match name with
  | VNone => "local"
  | VStr n => if String.eqb n (str VNone) then "local" else str (VStr n)
  | VInt z => str (VInt z)
  end.

(** What [check()] leaves in [self.url]: the [str] of [configuration['url']],
    or the url as it was when the key is missing. *)
Definition checked_url (configuration : dict value) (url : string) : string :=
  match lookup "url" configuration with
  | Some u => str u
  | None => url
  end.

(** [check()], for the dataset that [_formatted_data()] returns: the name,
    the url and the value returned. *)
Definition check (name : value) (configuration : dict value) (url : string)
    (data : dataset) : string * string * bool :=
  (checked_name name, checked_url configuration url,
   match data with Some _ => true | None => false end).

End UrlBase.

(** ** The text that [create] and [update] print *)

Module Statements.
Import Py Url.

(** The texts of a list, one after the other. *)
Fixpoint join (texts : list string) : string :=
  match texts with
  | [] => ""
  | t :: rest => t ++ join rest
  end.

(** The DIMENSION statement of a line, if its name is a key of the dataset. *)
Definition dimension_line (data : dict Z) (line : Line) : string :=
  if has_key (line_name line) data then
    nl ++ "DIMENSION " ++ line_name line ++ " " ++ line_options line
  else "".

(** The charts of [names], in this order, that have a line in the dataset:
    for each the CHART statement, with [priority] plus the number of the
    charts printed before it, and the DIMENSION statements of its lines that
    are in the dataset. *)
Fixpoint chart_statements (s : UrlService) (data : dict Z) (names : list string)
    (idx : Z) : string :=
  match names with
  | [] => ""
  | n :: rest =>
      match lookup n (charts s) with
      | Some c =>
          if Derived.matches data c then
            "CHART " ++ module s ++ "_" ++ name s ++ "." ++ n ++ " " ++
            options c ++ " " ++ str_of_Z (priority s + idx) ++ " " ++
            str_of_Z (update_every s) ++
            join (map (dimension_line data) (lines c)) ++ nl ++
            chart_statements s data rest (idx + 1)
          else chart_statements s data rest idx
      | None => ""
      end
  end.

(** The SET statement of a dimension, if it is a key of the dataset. *)
Definition set_line (data : dict Z) (dim : string) : string :=
  match lookup dim data with
  | Some v => nl ++ "SET " ++ dim ++ " = " ++ str_of_Z v
  | None => ""
  end.

(** The block of an entry of [definitions]: BEGIN, the SET statements of
    its dimensions that are in the dataset, END; nothing when no dimension
    of the entry is in the dataset. *)
Definition block (s : UrlService) (interval : Z) (data : dict Z)
    (entry : string * list string) : string :=
  let '(chart, dimensions) := entry in
  if existsb (fun dim => has_key dim data) dimensions then
    "BEGIN " ++ module s ++ "_" ++ name s ++ "." ++ chart ++ " " ++
    str_of_Z interval ++ join (map (set_line data) dimensions) ++ nl ++ "END" ++ nl
  else "".

End Statements.

(** ** More inputs for the examples *)

Module Samples.
Import Py.

(** Two charts: the first declares m1, the second m2. *)
Definition two_charts : Url.UrlService :=
  {| Url.module := "example"; Url.name := "local";
     Url.priority := 60000; Url.update_every := 1;
     Url.charts :=
       [("requests",
         {| Url.options := "'' 'Requests' 'requests/s' requests example.requests line";
            Url.lines := [ {| Url.line_name := "m1"; Url.line_options := "first incremental 1 1" |} ] |});
        ("errors",
         {| Url.options := "'' 'Errors' 'errors/s' errors example.errors line";
            Url.lines := [ {| Url.line_name := "m2"; Url.line_options := "second incremental 1 1" |} ] |})];
     Url.order := ["requests"; "errors"];
     Url.definitions := [];
     Url.stdout := "" |}.

(** The same table with two names in [order] that it lacks. *)
Definition two_ghosts : Url.UrlService :=
  {| Url.module := "example"; Url.name := "local";
     Url.priority := 60000; Url.update_every := 1;
     Url.charts := Url.charts two_charts;
     Url.order := ["ghost1"; "requests"; "ghost2"];
     Url.definitions := [];
     Url.stdout := "" |}.

(** A chart whose line has a name with a space in it. *)
Definition spaced : Url.UrlService :=
  {| Url.module := "example"; Url.name := "local";
     Url.priority := 60000; Url.update_every := 1;
     Url.charts :=
       [("requests",
         {| Url.options := "'' 'Requests' 'requests/s' requests example.requests line";
            Url.lines := [ {| Url.line_name := "has space"; Url.line_options := "first incremental 1 1" |} ] |})];
     Url.order := ["requests"];
     Url.definitions := [];
     Url.stdout := "" |}.

End Samples.

(** * Properties *)

(** ** Strings *)

Section Strings.

Lemma append_assoc (a b c : string) : (a ++ b) ++ c = a ++ b ++ c.
Proof. induction a as [|x a IH]; cbn; [reflexivity | now rewrite IH]. Qed.

Lemma append_nil_r (a : string) : a ++ "" = a.
Proof. induction a as [|x a IH]; cbn; [reflexivity | now rewrite IH]. Qed.

Lemma length_append (a b : string) :
  String.length (a ++ b) = (String.length a + String.length b)%nat.
Proof. induction a as [|x a IH]; cbn; [reflexivity | now rewrite IH]. Qed.

End Strings.

(** Both sides of an equation between texts, with the appends nested to the
  right and the literals unfolded. *)
Ltac flatten := rewrite ?append_assoc; cbn [append]; try reflexivity.

(** ** Python built-ins *)

Example str_of_Z_ex : (Py.str_of_Z 0, Py.str_of_Z 140000, Py.str_of_Z (-7)) = ("0", "140000", "-7").
Proof. reflexivity. Qed.

Example int_of_str_ex :
(Py.int_of_str " 42 ", Py.int_of_str "-007", Py.int_of_str "+5", Py.int_of_str "abc",
 Py.int_of_str "", Py.int_of_str "-", Py.int_of_str "1 2")
= (Some 42, Some (-7), Some 5, None, None, None, None).
Proof. reflexivity. Qed.

(** ** The scheduler *)

Section Scheduler.
Import Base Script.

Lemma due_test (s : BaseService) (c : cycle) :
  next (timetable s) <= t_start c -> (next (timetable s) >? t_start c) = false.
Proof. intros H. rewrite Z.gtb_ltb. apply Z.ltb_ge. exact H. Qed.

Lemma loop_app (script1 script2 : list cycle) : forall s,
  loop s (script1 ++ script2) =
  match loop s script1 with
  | Looping s' => loop s' script2
  | stopped => stopped
  end.
Proof.
  induction script1 as [|c script1 IH]; intros s; simpl.
  - reflexivity.
  - destruct (iteration s c); auto.
Qed.

(** A due iteration in which [update] returns a false value. *)
Lemma iteration_failure (s : BaseService) (c : cycle) :
  next (timetable s) <= t_start c ->
  upd c = Failure ->
  0 < retries_left s ->
  0 <= freq (timetable s) ->
  exists s', iteration s c = Looping s' /\
             retries s' = retries s - 1 /\
             retries_left s' = retries_left s /\
             timetable s' = timetable s.
Proof.
  intros Hdue Hupd Hleft Hfreq.
  unfold iteration, _run_once.
  rewrite (due_test s c Hdue), Hupd. cbn.
  destruct (retries_left s <=? 0) eqn:E; [apply Z.leb_le in E; lia|].
  destruct (freq (timetable s) <? 0) eqn:F; [apply Z.ltb_lt in F; lia|].
  eexists; split; [reflexivity|]. cbn. auto.
Qed.

Lemma loop_failures (script : list cycle) : forall s,
  Forall (failing_on_time (next (timetable s))) script ->
  0 < retries_left s ->
  0 <= freq (timetable s) ->
  exists s', loop s script = Looping s' /\
             retries s' = retries s - Z.of_nat (List.length script) /\
             retries_left s' = retries_left s /\
             timetable s' = timetable s.
Proof.
  induction script as [|c script IH]; intros s Hall Hleft Hfreq.
  - exists s. cbn. repeat split; lia.
  - inversion Hall as [|c' l' [Hupd Hdue] Hrest]; subst.
    destruct (iteration_failure s c Hdue Hupd Hleft Hfreq)
      as (s1 & Hit & Hr & Hl & Htt).
    destruct (IH s1) as (s2 & Hloop & Hr2 & Hl2 & Htt2).
    + rewrite Htt. exact Hrest.
    + lia.
    + rewrite Htt. exact Hfreq.
    + exists s2. cbn [loop]. rewrite Hit. split; [exact Hloop|].
      rewrite Hr2, Hl2, Htt2, Hr, Hl, Htt.
      change (List.length (c :: script)) with (S (List.length script)).
      repeat split; lia.
Qed.

Lemma init_fields (ue prio R now : Z) (s : BaseService) :
  init ue prio R now = Some s ->
  retries s = R /\ retries_left s = R /\ freq (timetable s) = ue /\
  next_slot now ue = Some (next (timetable s)).
Proof.
  unfold init, create_timetable. cbn.
  destruct (next_slot now ue) as [n|] eqn:E; [|discriminate].
  intros H. injection H as <-. cbn. auto.
Qed.

(** A due iteration in which [update] returns a true value. *)
Lemma run_once_success (s : BaseService) (c : cycle) :
  next (timetable s) <= t_start c ->
  upd c = Success ->
  freq (timetable s) <> 0 ->
  exists s', _run_once s c = Status true s' /\
             retries s' = retries s /\
             retries_left s' = retries_left s /\
             freq (timetable s') = freq (timetable s) /\
             last (timetable s') = t_start c /\
             next (timetable s') =
               t_end c - (t_end c) mod (freq (timetable s) * usec)
               + freq (timetable s) * usec.
Proof.
  intros Hdue Hupd Hfreq.
  unfold _run_once.
  rewrite (due_test s c Hdue), Hupd. unfold next_slot.
  destruct (freq (timetable s) =? 0) eqn:E; [apply Z.eqb_eq in E; contradiction|].
  eexists; split; [reflexivity|]. cbn. auto 6.
Qed.

Lemma iteration_success (s : BaseService) (c : cycle) :
  next (timetable s) <= t_start c ->
  upd c = Success ->
  freq (timetable s) <> 0 ->
  t_sleep c <= t_end c - (t_end c) mod (freq (timetable s) * usec)
               + freq (timetable s) * usec ->
  exists s', iteration s c = Looping s' /\
             retries s' = retries s /\
             retries_left s' = retries s /\
             freq (timetable s') = freq (timetable s) /\
             next (timetable s') =
               t_end c - (t_end c) mod (freq (timetable s) * usec)
               + freq (timetable s) * usec.
Proof.
  intros Hdue Hupd Hfreq Hsleep.
  destruct (run_once_success s c Hdue Hupd Hfreq) as (s1 & H1 & Hr & Hl & Hf & _ & Hn).
  unfold iteration. rewrite H1.
  destruct (next (timetable s1) - t_sleep c <? 0) eqn:E; [apply Z.ltb_lt in E; lia|].
  eexists; split; [reflexivity|]. cbn. auto.
Qed.

(** The slot after [t] is a multiple of the period. *)
Lemma slot_aligned (t F : Z) : 0 < F -> exists q, t - t mod F + F = F * q.
Proof.
  intros HF. exists (t / F + 1).
  pose proof (Z.div_mod t F ltac:(lia)). lia.
Qed.

(** A reading inside the slot that starts at a multiple [F * q] of the
    period is followed by the slot that starts at [F * q + F]. *)
Lemma slot_step (t F q : Z) :
  0 < F -> F * q <= t < F * q + F -> t - t mod F + F = F * q + F.
Proof.
  intros HF Ht.
  assert (t - F * q = t mod F) as <-; [|lia].
  apply Z.mod_unique with (q := q); lia.
Qed.

Lemma loop_on_time (F : Z) (script : list cycle) : forall (s : BaseService) (q : Z),
  0 < freq (timetable s) ->
  F = freq (timetable s) * usec ->
  next (timetable s) = F * q ->
  on_time (next (timetable s)) F script ->
  exists s', loop s script = Looping s' /\
             next (timetable s') = next (timetable s) + Z.of_nat (List.length script) * F.
Proof.
  induction script as [|c script IH]; intros s q Hfreq HF Hq Hon.
  - exists s. cbn. split; [reflexivity | lia].
  - destruct Hon as (Hupd & Hdue & Hend & Hsleep & Hrest).
    assert (HFpos : 0 < F) by (unfold usec in HF; lia).
    assert (Hn : t_end c - t_end c mod F + F = next (timetable s) + F).
    { rewrite Hq. apply slot_step; lia. }
    destruct (iteration_success s c Hdue Hupd ltac:(lia)) as (s1 & Hit & _ & _ & Hf1 & Hn1).
    { rewrite <- HF, Hn. exact Hsleep. }
    rewrite <- HF, Hn in Hn1.
    destruct (IH s1 (q + 1)) as (s2 & Hloop & Hn2).
    + rewrite Hf1. exact Hfreq.
    + rewrite Hf1. exact HF.
    + rewrite Hn1, Hq. lia.
    + rewrite Hn1. exact Hrest.
    + exists s2. cbn [loop]. rewrite Hit. split; [exact Hloop|].
      rewrite Hn2, Hn1. change (List.length (c :: script)) with (S (List.length script)). lia.
Qed.

(** The timetable that [__init__] leaves. *)
Lemma init_aligned (ue prio R now : Z) (s : BaseService) :
  0 < ue ->
  init ue prio R now = Some s ->
  freq (timetable s) = ue /\ next (timetable s) mod (ue * usec) = 0.
Proof.
  intros Hue Hinit.
  destruct (init_fields _ _ _ _ _ Hinit) as (_ & _ & Hf & Hn).
  split; [exact Hf|].
  unfold next_slot in Hn. destruct (ue =? 0); [discriminate|]. injection Hn as <-.
  destruct (slot_aligned now (ue * usec)) as (q & ->); [unfold usec; lia|].
  rewrite Z.mul_comm. apply Z.mod_mul. unfold usec. lia.
Qed.

Lemma errors_app (l1 l2 : list Msg.entry) :
  Msg.errors (l1 ++ l2) = (Msg.errors l1 ++ Msg.errors l2)%list.
Proof. unfold Msg.errors. rewrite filter_app, map_app. reflexivity. Qed.

End Scheduler.

(** ** Retries (C1), faults (C7) and the timetable (C3) *)

Section SchedulerClaims.
Import Base Script.

(** C1.  What [run] does with [retries = R > 0]: a failed cycle decrements
    [retries], while the test that ends the loop reads [retries_left], which
    failures leave at [R].  So no number of consecutive failures ends the
    loop, and a success after [n] failures sets [retries_left] to [R - n]
    (to 1 after [R - 1] failures), not to [R]. *)
Theorem failures_leave_retries_left
    (ue prio R now t0 : Z) (s : BaseService) (script : list cycle) (c : cycle) :
  0 < R -> 0 < ue ->
  init ue prio R now = Some s ->
  Forall (failing_on_time (next (timetable s))) script ->
  upd c = Success ->
  next (timetable s) <= t_start c ->
  t_sleep c <= t_end c - (t_end c) mod (ue * usec) + ue * usec ->
  (exists s', run s t0 script = Looping s' /\
              retries_left s' = R /\
              retries s' = R - Z.of_nat (List.length script)) /\
  (exists s', run s t0 (script ++ [c]) = Looping s' /\
              retries_left s' = R - Z.of_nat (List.length script)).
Proof.
  intros HR Hue Hinit Hall Hupd Hdue Hsleep.
  destruct (init_fields _ _ _ _ _ Hinit) as (Hr & Hl & Hf & _).
  unfold run.
  set (s0 := set_timetable s _).
  destruct (loop_failures script s0) as (s1 & Hloop & Hr1 & Hl1 & Htt1).
  - exact Hall.
  - cbn. lia.
  - cbn. lia.
  - cbn in Hr1, Hl1. split.
    + exists s1. repeat split; [exact Hloop | lia | lia].
    + destruct (iteration_success s1 c) as (s2 & Hit & _ & Hl2 & _).
      * rewrite Htt1. exact Hdue.
      * exact Hupd.
      * rewrite Htt1. cbn. lia.
      * rewrite Htt1. cbn. rewrite Hf. exact Hsleep.
      * exists s2. rewrite loop_app, Hloop. cbn [loop]. rewrite Hit.
        split; [reflexivity | lia].
Qed.

(** C7.  When [update] is called and an exception leaves it, the loop of
    [run] is left at once, whatever the retry counters hold and whatever
    would have followed: the counters are as they were, and the one error
    message that is added is that of the handler. *)
Theorem fault_ends_run
    (s : BaseService) (c : cycle) (rest : list cycle) (what : string) :
  next (timetable s) <= t_start c ->
  upd c = Raised what ->
  exists s', loop s (c :: rest) = Exited s' /\
             retries s' = retries s /\
             retries_left s' = retries_left s /\
             Msg.errors (log s') =
               (Msg.errors (log s) ++ [[("Something wrong: " ++ what)%string]])%list.
Proof.
  intros Hdue Hupd.
  cbn [loop]. unfold iteration, _run_once.
  rewrite (due_test s c Hdue), Hupd.
  eexists; split; [reflexivity|].
  repeat split.
  cbn [log set_log]. unfold Msg.error, Msg.debug. rewrite !errors_app.
  cbn. rewrite app_nil_r. reflexivity.
Qed.

(** C3 (amended).  For a service with a positive period whose [next] is a
    multiple of the period, as [create_timetable] and [_run_once] leave it:
    after a successful cycle [next] is [t_end - (t_end mod freq) + freq] for
    the clock [t_end] read after [update], again a multiple of the period;
    and when each of N consecutive successful cycles is over before the slot
    in which it was due ends, [next] has advanced by exactly N periods. *)
Theorem next_advances_one_period_per_timely_cycle
    (s : BaseService) (script : list cycle) :
  0 < freq (timetable s) ->
  next (timetable s) mod (freq (timetable s) * usec) = 0 ->
  (forall c, next (timetable s) <= t_start c -> upd c = Success ->
     exists s', _run_once s c = Status true s' /\
                next (timetable s') =
                  t_end c - (t_end c) mod (freq (timetable s) * usec)
                  + freq (timetable s) * usec /\
                next (timetable s') mod (freq (timetable s') * usec) = 0) /\
  (on_time (next (timetable s)) (freq (timetable s) * usec) script ->
     exists s', loop s script = Looping s' /\
                next (timetable s') =
                  next (timetable s)
                  + Z.of_nat (List.length script) * (freq (timetable s) * usec)).
Proof.
  intros Hfreq Hmod.
  assert (HF : 0 < freq (timetable s) * usec) by (unfold usec; lia).
  split.
  - intros c Hdue Hupd.
    destruct (run_once_success s c Hdue Hupd ltac:(lia)) as (s1 & H1 & _ & _ & Hf1 & _ & Hn1).
    exists s1. split; [exact H1 | split; [exact Hn1|]].
    rewrite Hf1, Hn1.
    destruct (slot_aligned (t_end c) _ HF) as (q & ->).
    rewrite Z.mul_comm. apply Z.mod_mul. lia.
  - intros Hon.
    apply (loop_on_time _ script s (next (timetable s) / (freq (timetable s) * usec)));
      [exact Hfreq | reflexivity | | exact Hon].
    pose proof (Z.div_mod (next (timetable s)) (freq (timetable s) * usec) ltac:(lia)).
    lia.
Qed.

End SchedulerClaims.

Section SchedulerExamples.
Import Base Script.

Lemma failures_leave_retries_left_witness :
  (exists s', run Demo.service 400000
                [Demo.failed 1000000; Demo.failed 2000000; Demo.failed 3000000]
              = Looping s' /\
              retries_left s' = 3 /\ retries s' = 3 - 3) /\
  (exists s', run Demo.service 400000
                ([Demo.failed 1000000; Demo.failed 2000000; Demo.failed 3000000]
                 ++ [Demo.succeeded 4000000 4100000])
              = Looping s' /\
              retries_left s' = 3 - 3).
Proof.
  apply (failures_leave_retries_left 1 140000 3 300000 400000 Demo.service
           [Demo.failed 1000000; Demo.failed 2000000; Demo.failed 3000000]
           (Demo.succeeded 4000000 4100000)).
  - lia.
  - lia.
  - reflexivity.
  - repeat constructor; cbn; lia.
  - reflexivity.
  - cbn. lia.
  - vm_compute. discriminate.
Defined.

(** Two failures out of three retries and then a success: [retries_left]
    is 1. *)
Example two_failures_then_success :
  exists s', run Demo.service 400000
               [Demo.failed 1000000; Demo.failed 2000000; Demo.succeeded 3000000 3100000]
             = Looping s' /\ retries_left s' = 1 /\ retries s' = 1.
Proof. eexists. split; [vm_compute; reflexivity | split; reflexivity]. Qed.

Lemma fault_ends_run_witness :
  exists s', loop Demo.service [Demo.faulted 1000000 "boom"; Demo.failed 2000000]
             = Exited s' /\
             retries s' = retries Demo.service /\
             retries_left s' = retries_left Demo.service /\
             Msg.errors (log s') =
               (Msg.errors (log Demo.service) ++ [[("Something wrong: " ++ "boom")%string]])%list.
Proof.
  apply (fault_ends_run Demo.service (Demo.faulted 1000000 "boom")
           [Demo.failed 2000000] "boom").
  - cbn. lia.
  - reflexivity.
Defined.

Lemma next_advances_one_period_per_timely_cycle_witness :
  (exists s', _run_once Demo.service (Demo.succeeded 1000000 1200000) = Status true s' /\
              next (timetable s') =
                t_end (Demo.succeeded 1000000 1200000)
                - (t_end (Demo.succeeded 1000000 1200000))
                    mod (freq (timetable Demo.service) * usec)
                + freq (timetable Demo.service) * usec /\
              next (timetable s') mod (freq (timetable s') * usec) = 0) /\
  (exists s', loop Demo.service
                [Demo.succeeded 1000000 1200000; Demo.succeeded 2000500 2900000]
              = Looping s' /\
              next (timetable s') =
                next (timetable Demo.service)
                + Z.of_nat 2 * (freq (timetable Demo.service) * usec)).
Proof.
  destruct (next_advances_one_period_per_timely_cycle Demo.service
              [Demo.succeeded 1000000 1200000; Demo.succeeded 2000500 2900000])
    as [Hone Hall].
  - cbn. lia.
  - reflexivity.
  - split.
    + apply Hone; [cbn; lia | reflexivity].
    + apply Hall. cbn. unfold usec. repeat split; lia.
Defined.

(** C3 as it is stated fails: a cycle that is due at 1 s and ends at
    2.5 s, with a period of 1 s, moves [next] from 1 s to 3 s. *)
Lemma late_cycle_skips_a_period :
  ~ (forall (ue prio R now : Z) (s s' : BaseService) (script : list cycle),
       0 < ue ->
       init ue prio R now = Some s ->
       successful s script ->
       loop s script = Looping s' ->
       next (timetable s') =
         next (timetable s) + Z.of_nat (List.length script) * (ue * usec)).
Proof.
  intros H.
  assert (E : exists s', loop Demo.service [Demo.succeeded 1000000 2500000] = Looping s'
                         /\ next (timetable s') = 3000000).
  { eexists. split; [vm_compute; reflexivity | reflexivity]. }
  destruct E as (s' & Hloop & Hnext).
  specialize (H 1 140000 3 300000 Demo.service s' [Demo.succeeded 1000000 2500000]
                ltac:(lia) eq_refl).
  rewrite Hnext in H.
  assert (C : 3000000 = next (timetable Demo.service) + Z.of_nat 1 * (1 * usec)).
  { apply H; [|exact Hloop].
    cbn [successful]. repeat split; try (vm_compute; discriminate).
    eexists. split; [vm_compute; reflexivity | exact I]. }
  vm_compute in C. discriminate.
Qed.

End SchedulerExamples.

(** ** The protocol encoder *)

Section Encoder.
Import Py Base.

Lemma line_params_from (params : list value) : forall ds,
  line_params ds params = ds ++ line_params "" params.
Proof.
  induction params as [|p params IH]; intros ds; cbn [line_params].
  - now rewrite append_nil_r.
  - rewrite (IH (ds ++ " " ++ field p)), (IH ("" ++ " " ++ field p)).
    now rewrite !append_assoc.
Qed.

Lemma line_params_split (before after : list value) (p : value) :
  line_params "" (before ++ p :: after) =
  line_params "" before ++ " " ++ field p ++ line_params "" after.
Proof.
  induction before as [|b before IH]; cbn [line_params List.app].
  - rewrite line_params_from. reflexivity.
  - rewrite (line_params_from (before ++ p :: after)), IH.
    rewrite (line_params_from before ("" ++ " " ++ field b)).
    now rewrite !append_assoc.
Qed.

(** The text that one call of [_line] adds to the buffer. *)
Lemma line_stream (s : BaseService) (instruction : string) (params : list value) :
  data_stream (_line s instruction params) =
  data_stream s ++ instruction ++ line_params "" params ++ nl.
Proof.
  unfold _line. cbn [data_stream set_data_stream].
  rewrite line_params_from. now rewrite !append_assoc.
Qed.

Lemma line_keeps (s : BaseService) (instruction : string) (params : list value) :
  log (_line s instruction params) = log s /\
  charts (_line s instruction params) = charts s /\
  dimensions (_line s instruction params) = dimensions s.
Proof. unfold _line. cbn. auto. Qed.

Lemma field_with_space (p : value) :
  has_space (str p) = true -> field p = "'" ++ str p ++ "'".
Proof.
  intros H. unfold field.
  destruct (str p) as [|c t] eqn:E; [discriminate|].
  cbn [String.length Nat.eqb]. now rewrite H.
Qed.

Lemma field_empty (p : value) : str p = "" -> field p = "''".
Proof. intros H. unfold field. rewrite H. reflexivity. Qed.

Lemma field_plain (p : value) :
  has_space (str p) = false -> str p <> "" -> field p = str p.
Proof.
  intros H Hne. unfold field.
  destruct (str p) as [|c t] eqn:E; [contradiction|].
  cbn [String.length Nat.eqb]. now rewrite H.
Qed.

Lemma digits_have_no_space (d : Decimal.uint) :
  has_space (NilEmpty.string_of_uint d) = false.
Proof. induction d; cbn; auto. Qed.

(** The decimal text of an int is left as it is. *)
Lemma field_number (z : Z) : field (VStr (str_of_Z z)) = str_of_Z z.
Proof.
  apply field_plain; cbn [str]; unfold str_of_Z, NilZero.string_of_int.
  - destruct (Z.to_int z) as [d|d]; cbn [has_space];
      destruct d; try reflexivity; cbn; apply digits_have_no_space.
  - destruct (Z.to_int z) as [d|d]; [destruct d|]; discriminate.
Qed.

Lemma try_int_passed (p : value) (z : Z) : int p = Ok z -> try_int p = Passed.
Proof. unfold try_int. now intros ->. Qed.

Lemma try_int_caught (p : value) : int p = Err TypeError -> try_int p = Caught.
Proof. unfold try_int. now intros ->. Qed.

Lemma error_logged (s : BaseService) (params : list string) :
  Msg.errors (log (error s params)) =
  (Msg.errors (log s) ++ [chart_name s :: params])%list /\
  data_stream (error s params) = data_stream s /\
  chart_name (error s params) = chart_name s /\
  charts (error s params) = charts s /\
  dimensions (error s params) = dimensions s.
Proof.
  unfold error. cbn [log set_log data_stream chart_name charts dimensions].
  unfold Msg.error. rewrite errors_app. auto.
Qed.

(** An id that was passed to [chart] is in [self.charts]. *)
Lemma chart_registers (s : BaseService)
    (type_id name title units family category charttype : string)
    (priority update_every : value) :
  mem type_id
    (charts (chart s type_id name title units family category charttype
               priority update_every)) = true.
Proof.
  unfold chart, _line. cbn. unfold mem. rewrite existsb_app. cbn.
  rewrite String.eqb_refl. now rewrite orb_true_r.
Qed.

(** [set] on an id that was not passed to [dimension]. *)
Lemma set_unregistered (s : BaseService) (id : string) (v : value) :
  mem id (dimensions s) = false ->
  exists s', set s id v = Returns false s' /\ data_stream s' = data_stream s.
Proof.
  intros H. unfold set. rewrite H. cbn.
  eexists; split; [reflexivity|]. reflexivity.
Qed.

(** [set] with a value on which [int] raises TypeError. *)
Lemma set_type_error (s : BaseService) (id : string) (v : value) :
  int v = Err TypeError ->
  exists s', set s id v = Returns false s' /\ data_stream s' = data_stream s.
Proof.
  intros H. unfold set. rewrite H.
  destruct (negb (mem id (dimensions s))); eexists; split; reflexivity.
Qed.

(** [set] with a registered id and a value that [int] accepts. *)
Lemma set_appends (s : BaseService) (id : string) (v : value) (z : Z) :
  mem id (dimensions s) = true ->
  int v = Ok z ->
  set s id v =
  Returns true
    (set_data_stream s
       (data_stream s ++ "SET " ++ field (VStr id) ++ " = " ++ str_of_Z z ++ nl)).
Proof.
  intros Hm Hv. unfold set. rewrite Hm, Hv. cbn [negb].
  f_equal. unfold _line. f_equal. cbn [line_params data_stream set_data_stream].
  rewrite field_number. flatten.
Qed.

End Encoder.

(** ** The statements of the encoder (C4, C5, C6, C8) *)

Section EncoderClaims.
Import Py Base Encoding.

Lemma int_cases (p : value) :
  (exists z, int p = Ok z) \/ int p = Err TypeError \/ int p = Err ValueError.
Proof.
  destruct p as [z|t|]; cbn.
  - left. now exists z.
  - destruct (int_of_str t) as [z|]; [left; now exists z | auto].
  - auto.
Qed.

(** C6 (amended).  A parameter of [_line] whose text contains a space is
    written between single quotes, and one whose text is empty is written as
    the two characters ['']; the parameters before and after it are written
    as they are on their own.  Every statement that [chart], [dimension],
    [begin], [set] and [end] add to the buffer is one such line of
    [_line]. *)
Theorem line_quotes_fields
    (s : BaseService) (instruction : string) (before after : list value) (p : value) :
  (has_space (str p) = true ->
     data_stream (_line s instruction (before ++ p :: after)) =
     data_stream s ++ instruction ++ line_params "" before ++
     " '" ++ str p ++ "'" ++ line_params "" after ++ nl) /\
  (str p = "" ->
     data_stream (_line s instruction (before ++ p :: after)) =
     data_stream s ++ instruction ++ line_params "" before ++
     " ''" ++ line_params "" after ++ nl) /\
  (forall type_id name title units family category charttype priority update_every,
     data_stream (chart s type_id name title units family category charttype
                    priority update_every) =
     data_stream s ++ "CHART" ++
     line_params "" [VStr type_id; VStr name; VStr title; VStr units; VStr family;
                     VStr category; VStr charttype; priority; update_every] ++ nl) /\
  (forall id name algorithm multiplier divisor hidden,
     data_stream (Base.after (dimension s id name algorithm multiplier divisor hidden))
       = data_stream s \/
     exists params,
       data_stream (Base.after (dimension s id name algorithm multiplier divisor hidden))
       = data_stream s ++ "DIMENSION" ++ line_params "" params ++ nl) /\
  (forall type_id microseconds,
     data_stream (Base.after (begin s type_id microseconds)) = data_stream s \/
     exists params,
       data_stream (Base.after (begin s type_id microseconds))
       = data_stream s ++ "BEGIN" ++ line_params "" params ++ nl) /\
  (forall id v,
     data_stream (Base.after (set s id v)) = data_stream s \/
     exists params,
       data_stream (Base.after (set s id v))
       = data_stream s ++ "SET" ++ line_params "" params ++ nl) /\
  data_stream (end_ s) = data_stream s ++ "END" ++ line_params "" [] ++ nl.
Proof.
  split; [|split; [|split; [|split; [|split; [|split]]]]].
  - intros H. rewrite line_stream, line_params_split.
    rewrite (field_with_space p H). flatten.
  - intros H. rewrite line_stream, line_params_split.
    rewrite (field_empty p H). flatten.
  - intros. unfold chart. rewrite line_stream. reflexivity.
  - intros. unfold dimension, try_int.
    destruct (int multiplier) as [zm|[k| |]]; cbn iota beta;
      try (left; reflexivity);
      destruct (int divisor) as [zd|[k'| |]]; cbn iota beta;
      try (left; reflexivity);
      destruct hidden; cbn [Base.after];
      right; eexists; rewrite line_stream; reflexivity.
  - intros. unfold begin, try_int.
    destruct (negb (mem type_id (charts s))); [left; reflexivity|].
    destruct (int microseconds) as [z|[k| |]]; cbn [Base.after];
      try (left; reflexivity);
      right; eexists; rewrite line_stream; reflexivity.
  - intros. unfold set.
    destruct (negb (mem id (dimensions s))); [left; reflexivity|].
    destruct (int v) as [z|[k| |]]; cbn [Base.after];
      try (left; reflexivity);
      right; eexists; rewrite line_stream; reflexivity.
  - unfold end_. apply line_stream.
Qed.

(** C4 (amended).  [begin] with an id that is not in [self.charts] logs
    the error, returns False and leaves the buffer as it is.  With a
    registered id and microseconds that [int] accepts it appends
    BEGIN id microseconds.  With microseconds on which [int] raises
    TypeError (None) it logs the error and appends BEGIN id [''], the
    field being the empty text as [_line] writes it. *)
Theorem begin_statement (s : BaseService) (type_id : string) (microseconds : value) :
  (mem type_id (charts s) = false ->
     exists s', begin s type_id microseconds = Returns false s' /\
                data_stream s' = data_stream s /\
                Msg.errors (log s') =
                  (Msg.errors (log s) ++
                   [[chart_name s; "wrong chart type_id:"; type_id]])%list) /\
  (mem type_id (charts s) = true ->
     forall z, int microseconds = Ok z ->
     begin s type_id microseconds =
     Returns true
       (set_data_stream s
          (data_stream s ++ "BEGIN " ++ field (VStr type_id) ++ " " ++
           field microseconds ++ nl))) /\
  (mem type_id (charts s) = true ->
     int microseconds = Err TypeError ->
     exists s', begin s type_id microseconds = Returns true s' /\
                data_stream s' =
                  data_stream s ++ "BEGIN " ++ field (VStr type_id) ++ " ''" ++ nl /\
                Msg.errors (log s') =
                  (Msg.errors (log s) ++
                   [[chart_name s;
                     "malformed begin statement: microseconds are not a number:";
                     str microseconds]])%list).
Proof.
  repeat split.
  - intros Hm. unfold begin. rewrite Hm. cbn [negb].
    eexists; split; [reflexivity|].
    destruct (error_logged s ["wrong chart type_id:"; type_id]) as (Hl & Hd & _).
    auto.
  - intros Hm z Hz. unfold begin. rewrite Hm, (try_int_passed _ _ Hz). cbn [negb].
    f_equal. unfold _line. f_equal. cbn [line_params data_stream set_data_stream].
    flatten.
  - intros Hm Ht. unfold begin. rewrite Hm, (try_int_caught _ Ht). cbn [negb].
    eexists; split; [reflexivity|].
    set (params := ["malformed begin statement: microseconds are not a number:";
                    str microseconds]).
    destruct (error_logged s params) as (Hl & Hd & _).
    rewrite line_stream, Hd. destruct (line_keeps (error s params) "BEGIN"
                                         [VStr type_id; VStr ""]) as (-> & _).
    split; [|exact Hl].
    cbn [line_params]. change (field (VStr "")) with "''". flatten.
Qed.

(** C5.  [set] with the registered id "user" and the text "abc": the
    ValueError that [int] raises is not the TypeError that [set] catches,
    so the call does not return False; the exception leaves it. *)
Theorem set_lets_value_error_out :
  set Demo.registered "user" (VStr "abc") = Raises ValueError Demo.registered.
Proof. reflexivity. Qed.

(** C8 (amended).  When [int] accepts the multiplier and the divisor or
    raises TypeError on them, [dimension] registers the id and appends one
    DIMENSION statement: an algorithm that is not one of the four is
    written as absolute, an argument on which [int] raised TypeError as 1,
    and "hidden" is added exactly when [hidden] is true.  The error
    messages that are logged are those for the multiplier and the divisor;
    there is none for the algorithm. *)
Theorem dimension_statement
    (s : BaseService) (id : string) (name : option string) (algorithm : string)
    (multiplier divisor : value) (hidden : bool) :
  int multiplier <> Err ValueError ->
  int divisor <> Err ValueError ->
  exists s',
    dimension s id name algorithm multiplier divisor hidden = Returns tt s' /\
    data_stream s' =
      data_stream s ++ "DIMENSION " ++ field (VStr id) ++ " " ++
      field (VStr (match name with None => id | Some n => n end)) ++ " " ++
      field (VStr (if mem algorithm algorithms then algorithm else "absolute")) ++ " " ++
      field (checked multiplier) ++ " " ++ field (checked divisor) ++
      (if hidden then " hidden" else "") ++ nl /\
    dimensions s' = (dimensions s ++ [id])%list /\
    Msg.errors (log s') =
      (Msg.errors (log s) ++ complaint s "multiplier" multiplier
       ++ complaint s "divisor" divisor)%list.
Proof.
  intros Hm Hd.
  unfold dimension, try_int, checked, complaint.
  destruct (int_cases multiplier) as [(zm & Em) | [Em | Em]]; [| |contradiction];
    destruct (int_cases divisor) as [(zd & Ed) | [Ed | Ed]]; try contradiction;
    rewrite Em, Ed; cbn iota beta;
    destruct (mem algorithm algorithms); cbn [negb];
    destruct hidden; (eexists; split; [reflexivity|]);
    rewrite line_stream.
  all: cbn [line_params]; change (field (VStr "hidden")) with "hidden".
  all: unfold _line, error;
    cbn [data_stream dimensions log chart_name set_data_stream set_dimensions set_log];
    unfold Msg.error; rewrite ?errors_app;
    change (field (VInt 1)) with "1".
  all: split; [flatten | split; [reflexivity|]].
  all: cbn; rewrite ?app_nil_r, <- ?app_assoc; reflexivity.
Qed.

End EncoderClaims.

Section EncoderExamples.
Import Py Base Encoding.

(** A display name "has space" and an empty title, as [dimension] and
    [chart] hand them to [_line]. *)
Lemma line_quotes_fields_witness :
  data_stream (_line Demo.service "DIMENSION"
                 ([VStr "d"] ++ VStr "has space" :: [VStr "absolute"; VInt 1; VInt 1])) =
    data_stream Demo.service ++ "DIMENSION" ++ line_params "" [VStr "d"] ++
    " '" ++ str (VStr "has space") ++ "'" ++
    line_params "" [VStr "absolute"; VInt 1; VInt 1] ++ nl
  /\
  data_stream (_line Demo.service "CHART"
                 ([VStr "cpu"; VStr "name"] ++ VStr "" :: [VStr "percent"])) =
    data_stream Demo.service ++ "CHART" ++ line_params "" [VStr "cpu"; VStr "name"] ++
    " ''" ++ line_params "" [VStr "percent"] ++ nl.
Proof.
  split.
  - apply (proj1 (line_quotes_fields Demo.service "DIMENSION" [VStr "d"]
                    [VStr "absolute"; VInt 1; VInt 1] (VStr "has space"))).
    reflexivity.
  - apply (proj1 (proj2 (line_quotes_fields Demo.service "CHART" [VStr "cpu"; VStr "name"]
                             [VStr "percent"] (VStr "")))).
    reflexivity.
Defined.

Example dimension_with_spaced_name :
  data_stream
    (after (dimension Demo.service "d" (Some "has space") "absolute" (VInt 1) (VInt 1) false))
  = "DIMENSION d 'has space' absolute 1 1" ++ nl.
Proof. reflexivity. Qed.

Example chart_with_empty_title :
  data_stream
    (chart Demo.service "cpu" "name" "" "percent" "cpu" "cat" "line" (VInt 1000) (VInt 1))
  = "CHART cpu name '' percent cpu cat line 1000 1" ++ nl.
Proof. reflexivity. Qed.

Lemma begin_statement_witness :
  (exists s', begin Demo.registered "mem" (VInt 0) = Returns false s' /\
              data_stream s' = data_stream Demo.registered /\
              Msg.errors (log s') =
                (Msg.errors (log Demo.registered) ++
                 [[chart_name Demo.registered; "wrong chart type_id:"; "mem"]])%list) /\
  begin Demo.registered "cpu" (VInt 5) =
    Returns true
      (set_data_stream Demo.registered
         (data_stream Demo.registered ++ "BEGIN " ++ field (VStr "cpu") ++ " " ++
          field (VInt 5) ++ nl)) /\
  (exists s', begin Demo.registered "cpu" VNone = Returns true s' /\
              data_stream s' =
                data_stream Demo.registered ++ "BEGIN " ++ field (VStr "cpu") ++
                " ''" ++ nl /\
              Msg.errors (log s') =
                (Msg.errors (log Demo.registered) ++
                 [[chart_name Demo.registered;
                   "malformed begin statement: microseconds are not a number:";
                   str VNone]])%list).
Proof.
  split; [|split].
  - apply (proj1 (begin_statement Demo.registered "mem" (VInt 0))). reflexivity.
  - apply (proj1 (proj2 (begin_statement Demo.registered "cpu" (VInt 5)))
             eq_refl 5 eq_refl).
  - apply (proj2 (proj2 (begin_statement Demo.registered "cpu" VNone))); reflexivity.
Defined.

(** C4 as it is stated fails: with None for the microseconds the BEGIN
    statement still has a second field, [''].  *)
Lemma begin_keeps_empty_field :
  ~ (forall (s : BaseService) (type_id : string) (microseconds : value),
       mem type_id (charts s) = true ->
       (forall z, int microseconds <> Ok z) ->
       exists s', begin s type_id microseconds = Returns true s' /\
                  log s' <> log s /\
                  data_stream s' =
                    data_stream s ++ "BEGIN " ++ field (VStr type_id) ++ nl).
Proof.
  intros H.
  destruct (H Demo.registered "cpu" VNone eq_refl) as (s' & Hb & _ & Hd).
  - intros z. discriminate.
  - vm_compute in Hb. injection Hb as <-. vm_compute in Hd. discriminate.
Qed.

(** A text that is not a number leaves [begin] and [dimension] as it
    leaves [set]. *)
Example begin_lets_value_error_out :
  begin Demo.registered "cpu" (VStr "soon") = Raises ValueError Demo.registered.
Proof. reflexivity. Qed.

Example dimension_lets_value_error_out :
  dimension Demo.service "d" None "absolute" (VStr "two") (VInt 1) false
  = Raises ValueError Demo.service.
Proof. reflexivity. Qed.

Lemma dimension_statement_witness :
  exists s',
    dimension Demo.service "d" (Some "has space") "bogus" VNone (VInt 8) true
      = Returns tt s' /\
    data_stream s' =
      data_stream Demo.service ++ "DIMENSION " ++ field (VStr "d") ++ " " ++
      field (VStr "has space") ++ " " ++
      field (VStr (if mem "bogus" algorithms then "bogus" else "absolute")) ++ " " ++
      field (checked VNone) ++ " " ++ field (checked (VInt 8)) ++
      " hidden" ++ nl /\
    dimensions s' = (dimensions Demo.service ++ ["d"])%list /\
    Msg.errors (log s') =
      (Msg.errors (log Demo.service) ++ complaint Demo.service "multiplier" VNone
       ++ complaint Demo.service "divisor" (VInt 8))%list.
Proof.
  apply (dimension_statement Demo.service "d" (Some "has space") "bogus"
           VNone (VInt 8) true); discriminate.
Defined.

Example dimension_with_bogus_arguments :
  exists s',
    dimension Demo.service "d" None "bogus" VNone (VInt 8) true = Returns tt s' /\
    data_stream s' = "DIMENSION d d absolute 1 8 hidden" ++ nl /\
    Msg.errors (log s') = [[""; "malformed dimension: multiplier is not a number:"; "None"]].
Proof. eexists. repeat split. Qed.

(** C8 as it is stated fails: nothing is logged when the algorithm is
    replaced. *)
Lemma algorithm_is_replaced_silently :
  ~ (forall (s : BaseService) (id : string) (name : option string) (algorithm : string)
            (multiplier divisor : value) (hidden : bool),
       mem algorithm algorithms = false ->
       exists s', dimension s id name algorithm multiplier divisor hidden
                    = Returns tt s' /\
                  log s' <> log s).
Proof.
  intros H.
  destruct (H Demo.service "d" None "bogus" (VInt 1) (VInt 1) false eq_refl)
    as (s' & Hd & Hlog).
  vm_compute in Hd. injection Hd as <-. apply Hlog. reflexivity.
Qed.

End EncoderExamples.

(** ** UrlService: the charts that are created and updated (C2, C10) *)

Section Derivation.
Import Py Url.

Lemma lookup_dict_set {V : Type} (k k' : string) (v : V) (d : dict V) :
  lookup k (dict_set k' v d) = if String.eqb k k' then Some v else lookup k d.
Proof.
  induction d as [|[k0 v0] d IH]; cbn.
  - reflexivity.
  - destruct (String.eqb k' k0) eqn:E0; cbn.
    + apply String.eqb_eq in E0. subst k0.
      destruct (String.eqb k k'); reflexivity.
    + rewrite IH. destruct (String.eqb k k0) eqn:E1; [|reflexivity].
      apply String.eqb_eq in E1. subst k0.
      now rewrite String.eqb_sym, E0.
Qed.

Lemma lookup_dict_append {V : Type} (k k' : string) (x : V) (d : dict (list V)) :
  lookup k (dict_append k' x d) =
  if String.eqb k k' then option_map (fun l => (l ++ [x])%list) (lookup k d)
  else lookup k d.
Proof.
  induction d as [|[k0 l0] d IH]; cbn.
  - destruct (String.eqb k k'); reflexivity.
  - destruct (String.eqb k' k0) eqn:E0; cbn.
    + apply String.eqb_eq in E0. subst k0.
      destruct (String.eqb k k'); reflexivity.
    + rewrite IH. destruct (String.eqb k k0) eqn:E1; [|reflexivity].
      apply String.eqb_eq in E1. subst k0.
      now rewrite String.eqb_sym, E0.
Qed.

(** The inner loop of the first loop of [create] appends the names of the
    lines to the entry of the chart and leaves the other entries alone. *)
Lemma lookup_after_lines (k n : string) (ls : list Line) : forall d,
  lookup k (fold_left (fun d line => dict_append n (line_name line) d) ls d) =
  if String.eqb k n
  then option_map (fun l => (l ++ map line_name ls)%list) (lookup k d)
  else lookup k d.
Proof.
  induction ls as [|l ls IH]; intros d; cbn [fold_left map].
  - destruct (String.eqb k n); [|reflexivity].
    destruct (lookup k d); cbn; [now rewrite app_nil_r | reflexivity].
  - rewrite IH, lookup_dict_append.
    destruct (String.eqb k n); [|reflexivity].
    destruct (lookup k d); cbn; [|reflexivity].
    now rewrite <- app_assoc.
Qed.

Lemma build_definitions_lookup (table : dict Chart) (n : string) (c : Chart)
    (names : list string) : forall defs,
  lookup n table = Some c ->
  In n names \/ lookup n defs = Some (map line_name (lines c)) ->
  lookup n (build_definitions table names defs) = Some (map line_name (lines c)).
Proof.
  induction names as [|n0 names IH]; intros defs Hc H; cbn [build_definitions].
  - destruct H as [[]|H]. exact H.
  - destruct (lookup n0 table) as [c0|] eqn:E0.
    + apply IH; [exact Hc|].
      rewrite lookup_after_lines, lookup_dict_set.
      destruct (String.eqb n n0) eqn:E.
      * apply String.eqb_eq in E. subst n0.
        right. cbn. congruence.
      * apply String.eqb_neq in E.
        destruct H as [[H|H]|H]; [congruence | now left | now right].
    + apply IH; [exact Hc|].
      destruct H as [[H|H]|H]; [congruence | now left | now right].
Qed.

(** The second loop of [create] stops at the first name that the table
    lacks. *)
Lemma emit_charts_missing (s : UrlService) (d : dict Z) (names : list string) :
  forall (idx : Z) (data_stream : string),
  (exists n, In n names /\ lookup n (charts s) = None) ->
  exists n, In n names /\ lookup n (charts s) = None /\
            emit_charts s d names idx data_stream = Err (KeyError n).
Proof.
  induction names as [|n0 names IH]; intros idx ds (n & Hin & Hn).
  - destruct Hin.
  - cbn [emit_charts].
    destruct (lookup n0 (charts s)) as [c0|] eqn:E0.
    + assert (Hrest : exists n, In n names /\ lookup n (charts s) = None).
      { exists n. split; [|exact Hn]. destruct Hin as [->|Hin]; [congruence | exact Hin]. }
      destruct (0 <? String.length (chart_content d (lines c0)))%nat;
        [destruct (IH (idx + 1) (ds ++ ("CHART " ++ module s ++ "_" ++ name s ++ "." ++ n0 ++ " " ++
            options c0 ++ " " ++ str_of_Z (priority s + idx) ++ " " ++
            str_of_Z (update_every s)) ++ chart_content d (lines c0) ++ nl) Hrest)
           as (m & Hm & Hl & He)
        | destruct (IH idx ds Hrest) as (m & Hm & Hl & He)];
        exists m; (split; [now right | split; [exact Hl | exact He]]).
    + exists n0. split; [now left | split; [exact E0 | reflexivity]].
Qed.

Lemma add_value_grows (d : dict Z) (c dim : string) :
  (String.length c <= String.length (add_value d c dim))%nat.
Proof.
  unfold add_value. destruct (lookup dim d); [rewrite length_append|]; lia.
Qed.

Lemma values_grow (d : dict Z) (dims : list string) : forall c,
  (String.length c <= String.length (fold_left (add_value d) dims c))%nat.
Proof.
  induction dims as [|dim dims IH]; intros c; cbn [fold_left]; [lia|].
  pose proof (add_value_grows d c dim). pose proof (IH (add_value d c dim)). lia.
Qed.

(** A dimension that is a key of the dataset makes the text of the inner
    loop of [update] non-empty. *)
Lemma values_present (d : dict Z) (dims : list string) : forall c,
  (exists dim, In dim dims /\ has_key dim d = true) ->
  (String.length c < String.length (fold_left (add_value d) dims c))%nat.
Proof.
  induction dims as [|dim0 dims IH]; intros c (dim & Hin & Hk); [destruct Hin|].
  cbn [fold_left]. destruct Hin as [->|Hin].
  - pose proof (values_grow d dims (add_value d c dim)) as G.
    unfold has_key in Hk. unfold add_value in *.
    destruct (lookup dim d); [|discriminate].
    rewrite !length_append in G. change (String.length nl) with 1%nat in G. lia.
  - pose proof (add_value_grows d c dim0).
    pose proof (IH (add_value d c dim0) (ex_intro _ dim (conj Hin Hk))). lia.
Qed.

Lemma values_absent (d : dict Z) (dims : list string) : forall c,
  (forall dim, In dim dims -> has_key dim d = false) ->
  fold_left (add_value d) dims c = c.
Proof.
  induction dims as [|dim0 dims IH]; intros c H; cbn [fold_left]; [reflexivity|].
  assert (E : add_value d c dim0 = c).
  { specialize (H dim0 (or_introl eq_refl)). unfold has_key in H. unfold add_value.
    destruct (lookup dim0 d); [discriminate | reflexivity]. }
  rewrite E. apply IH. intros dim Hin. apply H. now right.
Qed.

(** What [create] with the dataset m1 = 5 and then [update] with the
    dataset m2 = 7 print for the chart that declares m1 and m2. *)
Lemma collector_output :
  exists s1 s2,
    create Demo.collector (Some [("m1", 5)]) = Returns true s1 /\
    stdout s1 =
      "CHART example_local.requests '' 'Requests' 'requests/s' requests example.requests line 60000 1"
      ++ nl ++ "DIMENSION m1 first incremental 1 1" ++ nl ++ nl /\
    update s1 1000000 (Some [("m2", 7)]) = Returns true s2 /\
    stdout s2 =
      stdout s1 ++ "BEGIN example_local.requests 1000000" ++ nl ++
      "SET m2 = 7" ++ nl ++ "END" ++ nl ++ nl.
Proof.
  eexists. eexists.
  split; [vm_compute; reflexivity|].
  split; [vm_compute; reflexivity|].
  split; [vm_compute; reflexivity|].
  vm_compute; reflexivity.
Qed.

End Derivation.


Section DerivationExamples.
Import Py Url.

(** C2 as it is stated fails: after [create] with the dataset m1 = 5, the
    output of [update] with the dataset m2 = 7 is not the empty line that
    [print] makes of an empty text. *)
Lemma update_emits_block_for_m2 :
  ~ (forall s1 s2 : UrlService,
       create Demo.collector (Some [("m1", 5)]) = Returns true s1 ->
       update s1 1000000 (Some [("m2", 7)]) = Returns true s2 ->
       stdout s2 = stdout s1 ++ "" ++ nl).
Proof.
  intros H.
  destruct collector_output as (s1 & s2 & Hc & Ho & Hu & Hs).
  specialize (H s1 s2 Hc Hu).
  rewrite Hs, Ho in H. vm_compute in H. discriminate.
Qed.

(** C10 as it is stated fails: when [_formatted_data()] returns None,
    [create] returns False and no exception leaves it. *)
Lemma create_returns_without_dataset :
  ~ (forall (s : UrlService) (data : dataset),
       (exists n, In n (order s) /\ lookup n (charts s) = None) ->
       exists e s', create s data = Raises e s').
Proof.
  intros H.
  destruct (H Demo.misordered None) as (e & s' & Hc).
  - exists "ghost". split; [cbn; auto | reflexivity].
  - vm_compute in Hc. discriminate.
Qed.

End DerivationExamples.

(** * Further properties *)

(** ** The timetable and the loop of [run] *)

Section SchedulerMore.
Import Base Script Trace.

(** What [_run_once] never touches. *)
Lemma run_once_keeps (s : BaseService) (c : cycle) :
  forall s', (exists b, _run_once s c = Status b s') \/
             (exists what, _run_once s c = Exception what s') ->
  retries s' = retries s /\ retries_left s' = retries_left s /\
  freq (timetable s') = freq (timetable s) /\
  data_stream s' = data_stream s /\
  charts s' = charts s /\ dimensions s' = dimensions s.
Proof.
  intros s' H. unfold _run_once in H.
  destruct (next (timetable s) >? t_start c).
  - destruct H as [(b & H) | (w & H)]; [|discriminate].
    injection H as _ <-. cbn. auto 6.
  - destruct (upd c).
    + destruct (next_slot (t_end c) (freq (timetable s))).
      * destruct H as [(b & H) | (w & H)]; [|discriminate].
        injection H as _ <-. cbn. auto 6.
      * destruct H as [(b & H) | (w & H)]; [discriminate|].
        injection H as _ <-. cbn. auto 6.
    + destruct H as [(b & H) | (w & H)]; [|discriminate].
      injection H as _ <-. cbn. auto 6.
    + destruct H as [(b & H) | (w & H)]; [discriminate|].
      injection H as _ <-. cbn. auto 6.
Qed.

(** X1.  [create_timetable] with a positive period: [last] is the clock
    that was read, [next] is the first multiple of the period after it
    (later than the clock by at most one period), and the retry counters are
    left alone.  With a period of zero the modulo raises and no timetable is
    made. *)
Theorem create_timetable_slot (s : BaseService) (arg : option Z) (now : Z) :
  (0 < match arg with None => update_every s | Some f => f end ->
   exists s', create_timetable s arg now = Some s' /\
              last (timetable s') = now /\
              freq (timetable s') = match arg with None => update_every s | Some f => f end /\
              now < next (timetable s') <= now + freq (timetable s') * usec /\
              next (timetable s') mod (freq (timetable s') * usec) = 0 /\
              retries s' = retries s /\ retries_left s' = retries_left s) /\
  (match arg with None => update_every s | Some f => f end = 0 ->
   create_timetable s arg now = None).
Proof.
  unfold create_timetable, next_slot.
  set (f := match arg with None => update_every s | Some f => f end).
  split; intros Hf.
  - destruct (f =? 0) eqn:E; [apply Z.eqb_eq in E; lia|].
    eexists; split; [reflexivity|]. cbn.
    assert (HF : 0 < f * usec) by (unfold usec; lia).
    pose proof (Z.mod_pos_bound now (f * usec) HF).
    repeat split; try lia.
    destruct (slot_aligned now (f * usec) HF) as (q & ->).
    rewrite Z.mul_comm. apply Z.mod_mul. lia.
  - rewrite Hf. reflexivity.
Qed.

(** X2.  A call of [_run_once] before [next] returns True without calling
    [update] (its result does not depend on what [update] would do), and one
    in which [update] returns a false value returns False; in both cases the
    timetable is as it was and nothing is written to the output. *)
Theorem run_once_without_output (s : BaseService) (c : cycle) :
  (t_start c < next (timetable s) ->
   exists s', _run_once s c = Status true s' /\
              timetable s' = timetable s /\ stdout s' = stdout s /\
              forall c', t_start c' = t_start c -> _run_once s c' = Status true s') /\
  (next (timetable s) <= t_start c -> upd c = Failure ->
   exists s', _run_once s c = Status false s' /\
              timetable s' = timetable s /\ stdout s' = stdout s).
Proof.
  split.
  - intros H. unfold _run_once.
    assert (E : (next (timetable s) >? t_start c) = true)
      by (rewrite Z.gtb_ltb; apply Z.ltb_lt; exact H).
    rewrite E. eexists; split; [reflexivity|]. cbn. repeat split.
    intros c' Hc'. rewrite Hc', E. reflexivity.
  - intros Hdue Hupd. unfold _run_once. rewrite (due_test s c Hdue), Hupd.
    eexists; split; [reflexivity|]. cbn. auto.
Qed.

Ltac errors_of_log :=
  cbn; unfold Msg.debug, Msg.error, Msg.errors;
  rewrite ?filter_app, ?map_app; cbn; rewrite ?app_nil_r; try reflexivity.

(** A due cycle in which [update] returns a false value, with no retries
    left. *)
Lemma iteration_exhausted (s : BaseService) (c : cycle) :
  retries_left s <= 0 ->
  next (timetable s) <= t_start c ->
  upd c = Failure ->
  exists s', iteration s c = Exited s' /\
             retries s' = retries s - 1 /\
             Msg.errors (log s') =
               (Msg.errors (log s) ++ [["no more retries. Exiting"]])%list /\
             stdout s' = stdout s.
Proof.
  intros Hleft Hdue Hupd.
  unfold iteration, _run_once.
  rewrite (due_test s c Hdue), Hupd.
  cbn [retries_left set_retries set_log].
  destruct (retries_left s <=? 0) eqn:E; [|apply Z.leb_gt in E; lia].
  eexists; split; [reflexivity|].
  cbn [retries set_retries set_log log stdout].
  repeat split.
  unfold Msg.error, Msg.debug. rewrite !errors_app. cbn. now rewrite app_nil_r.
Qed.

(** An iteration after which the loop goes on logs no error. *)
Lemma looping_logs_no_error (s s' : BaseService) (c : cycle) :
  iteration s c = Looping s' -> Msg.errors (log s') = Msg.errors (log s).
Proof.
  unfold iteration, _run_once.
  destruct (next (timetable s) >? t_start c).
  - cbn. destruct (_ <? 0); [discriminate|].
    intros H. injection H as <-. errors_of_log.
  - destruct (upd c).
    + destruct (next_slot (t_end c) (freq (timetable s))); [|discriminate].
      cbn. destruct (_ <? 0); [discriminate|].
      intros H. injection H as <-. errors_of_log.
    + cbn. destruct (retries_left s <=? 0); [discriminate|].
      destruct (freq (timetable s) <? 0); [discriminate|].
      intros H. injection H as <-. errors_of_log.
    + discriminate.
Qed.

Lemma loop_logs_no_error (script : list cycle) : forall s s' : BaseService,
  loop s script = Looping s' -> Msg.errors (log s') = Msg.errors (log s).
Proof.
  induction script as [|c script IH]; intros s s' H; cbn [loop] in H.
  - now injection H as <-.
  - destruct (iteration s c) as [s1|s1|s1] eqn:E; try discriminate.
    rewrite (IH s1 s' H). exact (looping_logs_no_error s s1 c E).
Qed.

(** X4.  When [retries_left] is zero or less, the first due cycle in which
    [update] returns a false value ends [run]: "no more retries. Exiting" is
    logged, [retries] is one less, and what would have followed is not
    run. *)
Theorem exhausted_retries_end_run
    (s : BaseService) (c : cycle) (rest : list cycle) :
  retries_left s <= 0 ->
  next (timetable s) <= t_start c ->
  upd c = Failure ->
  exists s', loop s (c :: rest) = Exited s' /\
             retries s' = retries s - 1 /\
             Msg.errors (log s') =
               (Msg.errors (log s) ++ [["no more retries. Exiting"]])%list /\
             stdout s' = stdout s.
Proof.
  intros Hleft Hdue Hupd.
  destruct (iteration_exhausted s c Hleft Hdue Hupd) as (s' & Hit & H).
  exists s'. cbn [loop]. rewrite Hit. auto.
Qed.

Lemma iteration_counters (s : BaseService) (c : cycle) :
  retries s <= retries_left s ->
  retries (state_of (iteration s c)) <= retries_left (state_of (iteration s c)).
Proof.
  intros H. unfold iteration.
  destruct (_run_once s c) as [b s1 | what s1] eqn:E.
  - destruct (run_once_keeps s c s1 (or_introl (ex_intro _ b E))) as (Hr & Hl & _).
    destruct b.
    + destruct (next (timetable s1) - t_sleep c <? 0); cbn; lia.
    + cbn.
      destruct (retries_left s1 <=? 0); [cbn; lia|].
      destruct (freq (timetable s1) <? 0); cbn; lia.
  - destruct (run_once_keeps s c s1 (or_intror (ex_intro _ what E))) as (Hr & Hl & _).
    cbn. lia.
Qed.

(** X5.  [retries] never exceeds [retries_left]: the order that
    [_extract_base_config] sets up (the two are equal) is kept by every
    iteration of the loop, however the thread ends. *)
Theorem retries_stay_below_retries_left (script : list cycle) : forall s : BaseService,
  retries s <= retries_left s ->
  retries (state_of (loop s script)) <= retries_left (state_of (loop s script)).
Proof.
  induction script as [|c script IH]; intros s H; cbn [loop].
  - exact H.
  - pose proof (iteration_counters s c H) as Hc.
    destruct (iteration s c) as [s1|s1|s1]; [apply IH | |]; exact Hc.
Qed.

Lemma iteration_alignment (s : BaseService) (c : cycle) :
  0 < freq (timetable s) ->
  next (timetable s) mod (freq (timetable s) * usec) = 0 ->
  freq (timetable (state_of (iteration s c))) = freq (timetable s) /\
  next (timetable (state_of (iteration s c))) mod (freq (timetable s) * usec) = 0.
Proof.
  intros Hf Ha. unfold iteration, _run_once.
  destruct (next (timetable s) >? t_start c).
  - cbn. destruct (_ <? 0); cbn; auto.
  - destruct (upd c).
    + unfold next_slot.
      destruct (freq (timetable s) =? 0) eqn:E; [apply Z.eqb_eq in E; lia|].
      cbn [timetable set_timetable set_stdout set_log next last freq].
      assert (HF : 0 < freq (timetable s) * usec) by (unfold usec; lia).
      destruct (slot_aligned (t_end c) _ HF) as (q & Hq).
      destruct (_ <? 0); cbn; (split; [reflexivity|]);
        rewrite Hq, Z.mul_comm; apply Z.mod_mul; lia.
    + cbn [retries_left set_retries set_log].
      destruct (retries_left s <=? 0); [cbn; auto|].
      cbn [timetable set_retries set_log].
      destruct (freq (timetable s) <? 0); cbn; auto.
    + cbn. auto.
Qed.

(** X6.  The period is never changed by the loop, and [next] stays a
    multiple of the period, whatever the clock and [update] do and however
    the thread ends. *)
Theorem loop_keeps_next_aligned (script : list cycle) : forall s : BaseService,
  0 < freq (timetable s) ->
  next (timetable s) mod (freq (timetable s) * usec) = 0 ->
  freq (timetable (state_of (loop s script))) = freq (timetable s) /\
  next (timetable (state_of (loop s script))) mod (freq (timetable s) * usec) = 0.
Proof.
  induction script as [|c script IH]; intros s Hf Ha; cbn [loop].
  - cbn. auto.
  - destruct (iteration_alignment s c Hf Ha) as (Hf1 & Ha1).
    destruct (iteration s c) as [s1|s1|s1]; cbn [state_of] in *; [|auto|auto].
    destruct (IH s1) as (Hf2 & Ha2); [lia | rewrite Hf1; exact Ha1|].
    rewrite Hf1 in Hf2, Ha2. auto.
Qed.

(** X7.  The retries can run out once a success has copied a used-up
    [retries] into [retries_left]: for [retries = R > 0], at least R failed
    cycles, then a successful one, then a failed one end [run] with "no more
    retries. Exiting". *)
Theorem failure_after_success_ends_run
    (ue prio R now t0 : Z) (s : BaseService) (failures rest : list cycle)
    (ok bad : cycle) :
  0 < R -> 0 < ue ->
  init ue prio R now = Some s ->
  Forall (failing_on_time (next (timetable s))) failures ->
  R <= Z.of_nat (List.length failures) ->
  upd ok = Success ->
  next (timetable s) <= t_start ok ->
  t_sleep ok <= t_end ok - (t_end ok) mod (ue * usec) + ue * usec <= t_start bad ->
  upd bad = Failure ->
  exists s', run s t0 (failures ++ ok :: bad :: rest) = Exited s' /\
             Msg.errors (log s') = [["no more retries. Exiting"]].
Proof.
  intros HR Hue Hinit Hall Hlen Hok Hdue [Hsleep Hbad] Hupd.
  destruct (init_fields _ _ _ _ _ Hinit) as (Hr & Hl & Hf & _).
  assert (Hlog : log s = []).
  { unfold init, create_timetable in Hinit. cbn in Hinit.
    destruct (next_slot now ue); [|discriminate]. injection Hinit as <-. reflexivity. }
  unfold run. set (s0 := set_timetable s _).
  destruct (loop_failures failures s0) as (s1 & Hloop & Hr1 & Hl1 & Htt1);
    [exact Hall | cbn; lia | cbn; lia |].
  cbn in Hr1, Hl1.
  destruct (iteration_success s1 ok) as (s2 & Hit & Hr2 & Hl2 & Hf2 & Hn2).
  - rewrite Htt1. exact Hdue.
  - exact Hok.
  - rewrite Htt1. cbn. lia.
  - rewrite Htt1. cbn. rewrite Hf. exact Hsleep.
  - rewrite Htt1 in Hn2. cbn in Hn2. rewrite Hf in Hn2.
    destruct (iteration_exhausted s2 bad) as (s3 & Hex & _ & Hlog3 & _);
      [lia | rewrite Hn2; exact Hbad | exact Hupd |].
    exists s3. rewrite loop_app, Hloop. cbn [loop]. rewrite Hit, Hex.
    split; [reflexivity|].
    rewrite Hlog3, (looping_logs_no_error s1 s2 ok Hit), (loop_logs_no_error _ _ _ Hloop).
    cbn. rewrite Hlog. reflexivity.
Qed.

End SchedulerMore.

Section SchedulerMoreExamples.
Import Base Script Trace.

Lemma create_timetable_slot_witness :
  (exists s', create_timetable Demo.service None 300000 = Some s' /\
              last (timetable s') = 300000 /\
              freq (timetable s') = update_every Demo.service /\
              300000 < next (timetable s') <= 300000 + freq (timetable s') * usec /\
              next (timetable s') mod (freq (timetable s') * usec) = 0 /\
              retries s' = retries Demo.service /\
              retries_left s' = retries_left Demo.service) /\
  create_timetable Demo.service (Some 0) 300000 = None.
Proof.
  split.
  - apply (proj1 (create_timetable_slot Demo.service None 300000)). cbn. lia.
  - apply (proj2 (create_timetable_slot Demo.service (Some 0) 300000)). reflexivity.
Defined.

Lemma run_once_without_output_witness :
  (exists s', _run_once Demo.service (Demo.failed 500000) = Status true s' /\
              timetable s' = timetable Demo.service /\ stdout s' = stdout Demo.service /\
              forall c', t_start c' = t_start (Demo.failed 500000) ->
                         _run_once Demo.service c' = Status true s') /\
  (exists s', _run_once Demo.service (Demo.failed 1000000) = Status false s' /\
              timetable s' = timetable Demo.service /\ stdout s' = stdout Demo.service).
Proof.
  split.
  - apply (proj1 (run_once_without_output Demo.service (Demo.failed 500000))). cbn. lia.
  - apply (proj2 (run_once_without_output Demo.service (Demo.failed 1000000)));
      [cbn; lia | reflexivity].
Defined.

Lemma exhausted_retries_end_run_witness :
  exists s', loop (set_retries_left Demo.service 0)
               (Demo.failed 1000000 :: [Demo.succeeded 2000000 2100000])
             = Exited s' /\
             retries s' = retries (set_retries_left Demo.service 0) - 1 /\
             Msg.errors (log s') =
               (Msg.errors (log (set_retries_left Demo.service 0))
                ++ [["no more retries. Exiting"]])%list /\
             stdout s' = stdout (set_retries_left Demo.service 0).
Proof.
  apply (exhausted_retries_end_run (set_retries_left Demo.service 0)
           (Demo.failed 1000000) [Demo.succeeded 2000000 2100000]).
  - cbn. lia.
  - cbn. lia.
  - reflexivity.
Defined.

Lemma retries_stay_below_retries_left_witness :
  retries (state_of (loop Demo.service
                       [Demo.failed 1000000; Demo.succeeded 2000000 2100000;
                        Demo.failed 3000000]))
  <= retries_left (state_of (loop Demo.service
                               [Demo.failed 1000000; Demo.succeeded 2000000 2100000;
                                Demo.failed 3000000])).
Proof.
  apply (retries_stay_below_retries_left
           [Demo.failed 1000000; Demo.succeeded 2000000 2100000; Demo.failed 3000000]
           Demo.service).
  cbn. lia.
Defined.

Lemma loop_keeps_next_aligned_witness :
  freq (timetable (state_of (loop Demo.service
                               [Demo.failed 1000000; Demo.succeeded 2000000 7100000])))
  = freq (timetable Demo.service) /\
  next (timetable (state_of (loop Demo.service
                               [Demo.failed 1000000; Demo.succeeded 2000000 7100000])))
    mod (freq (timetable Demo.service) * usec) = 0.
Proof.
  apply (loop_keeps_next_aligned
           [Demo.failed 1000000; Demo.succeeded 2000000 7100000] Demo.service).
  - cbn. lia.
  - reflexivity.
Defined.

Lemma failure_after_success_ends_run_witness :
  exists s', run Demo.service 400000
               ([Demo.failed 1000000; Demo.failed 2000000; Demo.failed 3000000]
                ++ Demo.succeeded 4000000 4100000 :: Demo.failed 5000000
                   :: [Demo.failed 6000000])
             = Exited s' /\
             Msg.errors (log s') = [["no more retries. Exiting"]].
Proof.
  apply (failure_after_success_ends_run 1 140000 3 300000 400000 Demo.service
           [Demo.failed 1000000; Demo.failed 2000000; Demo.failed 3000000]
           [Demo.failed 6000000]
           (Demo.succeeded 4000000 4100000) (Demo.failed 5000000)).
  - lia.
  - lia.
  - reflexivity.
  - repeat constructor; cbn; lia.
  - cbn. lia.
  - reflexivity.
  - cbn. lia.
  - vm_compute. split; discriminate.
  - reflexivity.
Defined.

End SchedulerMoreExamples.

(** ** The buffer and the registered ids *)

Section EncoderMore.
Import Py Base Trace.

Lemma grows_refl (s : BaseService) : grows s s.
Proof.
  unfold grows. repeat split; try (exists []; now rewrite app_nil_r).
  exists "". now rewrite append_nil_r.
Qed.

Lemma grows_trans (s1 s2 s3 : BaseService) : grows s1 s2 -> grows s2 s3 -> grows s1 s3.
Proof.
  intros ((t1 & Hd1) & (c1 & Hc1) & (d1 & Hm1) & Ho1 & Ht1 & Hr1 & Hl1)
         ((t2 & Hd2) & (c2 & Hc2) & (d2 & Hm2) & Ho2 & Ht2 & Hr2 & Hl2).
  unfold grows. repeat split; try congruence.
  - exists (t1 ++ t2). now rewrite Hd2, Hd1, append_assoc.
  - exists (c1 ++ c2)%list. now rewrite Hc2, Hc1, <- app_assoc.
  - exists (d1 ++ d2)%list. now rewrite Hm2, Hm1, <- app_assoc.
Qed.

Lemma grows_line (s : BaseService) (instruction : string) (params : list value) :
  grows s (_line s instruction params).
Proof.
  unfold grows. rewrite line_stream. unfold _line. cbn.
  repeat split; try (exists []; now rewrite app_nil_r).
  now exists (instruction ++ line_params "" params ++ nl).
Qed.

Lemma grows_error (s : BaseService) (params : list string) : grows s (error s params).
Proof.
  unfold grows, error. cbn.
  repeat split; try (exists []; now rewrite app_nil_r).
  exists "". now rewrite append_nil_r.
Qed.

Lemma grows_chart_id (s : BaseService) (id : string) :
  grows s (set_charts s (charts s ++ [id])).
Proof.
  unfold grows. cbn.
  repeat split; try (exists []; now rewrite app_nil_r).
  - exists "". now rewrite append_nil_r.
  - now exists [id].
Qed.

Lemma grows_dimension_id (s : BaseService) (id : string) :
  grows s (set_dimensions s (dimensions s ++ [id])).
Proof.
  unfold grows. cbn.
  repeat split; try (exists []; now rewrite app_nil_r).
  - exists "". now rewrite append_nil_r.
  - now exists [id].
Qed.

Lemma grows_dimension (s : BaseService) (id : string) (name : option string)
    (algorithm : string) (multiplier divisor : value) (hidden : bool) :
  grows s (after (dimension s id name algorithm multiplier divisor hidden)).
Proof.
  unfold dimension, try_int.
  destruct (int multiplier) as [zm|[k| |]]; cbn iota beta;
    try apply grows_refl;
    destruct (int divisor) as [zd|[k'| |]]; cbn iota beta;
    try apply grows_refl; try apply grows_error;
    destruct hidden; cbn [after].
  all: eapply grows_trans; [|apply grows_line].
  all: eapply grows_trans; [|apply grows_dimension_id].
  all: repeat first
         [ apply grows_refl
         | apply grows_error
         | eapply grows_trans; [|apply grows_error] ].
Qed.

Lemma grows_begin (s : BaseService) (type_id : string) (microseconds : value) :
  grows s (after (begin s type_id microseconds)).
Proof.
  unfold begin, try_int.
  destruct (negb (mem type_id (charts s))); cbn [after]; [apply grows_error|].
  destruct (int microseconds) as [z|[k| |]]; cbn [after];
    repeat first
      [ apply grows_refl
      | apply grows_error
      | eapply grows_trans; [|apply grows_line] ].
Qed.

Lemma grows_set (s : BaseService) (id : string) (v : value) :
  grows s (after (set s id v)).
Proof.
  unfold set.
  destruct (negb (mem id (dimensions s))); cbn [after]; [apply grows_error|].
  destruct (int v) as [z|[k| |]]; cbn [after];
    first [apply grows_refl | apply grows_error | apply grows_line].
Qed.

Lemma mem_app_left (x : string) (l l' : list string) :
  mem x l = true -> mem x (l ++ l') = true.
Proof. unfold mem. rewrite existsb_app. now intros ->. Qed.

(** X8.  The methods of the encoder only add to the end of the buffer and
    of the lists of registered ids; none of them writes to the output or
    touches the timetable or the retry counters, whether it returns or an
    exception leaves it. *)
Theorem encoder_only_appends (s : BaseService) :
  (forall type_id name title units family category charttype priority update_every,
     grows s (chart s type_id name title units family category charttype
                priority update_every)) /\
  (forall id name algorithm multiplier divisor hidden,
     grows s (after (dimension s id name algorithm multiplier divisor hidden))) /\
  (forall type_id microseconds, grows s (after (begin s type_id microseconds))) /\
  (forall id v, grows s (after (set s id v))) /\
  grows s (end_ s).
Proof.
  split; [|split; [|split; [|split]]].
  - intros. unfold chart.
    eapply grows_trans; [apply grows_chart_id | apply grows_line].
  - intros. apply grows_dimension.
  - intros. apply grows_begin.
  - intros. apply grows_set.
  - apply grows_line.
Qed.

(** X9.  An id stays registered: after [chart(id)], and whatever the
    encoder is asked to do next, [begin(id)] with microseconds that [int]
    accepts returns True; after [dimension(id)] that returns, [set(id)] with
    a value that [int] accepts returns True. *)
Theorem registered_ids_are_accepted (s s' : BaseService) (id : string) (v : value) (z : Z) :
  int v = Ok z ->
  (forall name title units family category charttype priority update_every,
     grows (chart s id name title units family category charttype priority update_every)
           s' ->
     exists s'', begin s' id v = Returns true s'') /\
  (forall name algorithm multiplier divisor hidden s1,
     dimension s id name algorithm multiplier divisor hidden = Returns tt s1 ->
     grows s1 s' ->
     exists s'', set s' id v = Returns true s'').
Proof.
  intros Hv. split.
  - intros name title units family category charttype priority update_every
           (_ & (l & Hc) & _).
    unfold begin. rewrite Hc, mem_app_left, (try_int_passed _ _ Hv).
    + cbn. eexists; reflexivity.
    + apply chart_registers.
  - intros name algorithm multiplier divisor hidden s1 Hd (_ & _ & (l & Hm) & _).
    assert (R : mem id (dimensions s1) = true).
    { unfold dimension, try_int in Hd.
      destruct (int multiplier) as [zm|[k| |]]; cbn iota beta in Hd; try discriminate;
        destruct (int divisor) as [zd|[k'| |]]; cbn iota beta in Hd; try discriminate;
        destruct hidden; injection Hd as <-;
        unfold _line, error, mem; cbn; rewrite existsb_app; cbn;
        rewrite String.eqb_refl; now rewrite orb_true_r. }
    unfold set. rewrite Hm, (mem_app_left _ _ _ R), Hv. cbn. eexists; reflexivity.
Qed.

(** X10.  One data set from an empty buffer: for a registered chart and a
    registered dimension, [begin], [set], [end] and [commit] write the three
    statements and the empty line of [print] to the output and leave the
    buffer empty; a second [commit] then writes an empty line only. *)
Theorem data_set_is_written (s : BaseService) (type_id id : string)
    (microseconds v : value) (zu zv : Z) :
  data_stream s = "" ->
  mem type_id (charts s) = true ->
  mem id (dimensions s) = true ->
  int microseconds = Ok zu ->
  int v = Ok zv ->
  exists s1 s2,
    begin s type_id microseconds = Returns true s1 /\
    set s1 id v = Returns true s2 /\
    stdout (commit (end_ s2)) =
      stdout s ++ "BEGIN " ++ field (VStr type_id) ++ " " ++ field microseconds ++ nl ++
      "SET " ++ field (VStr id) ++ " = " ++ str_of_Z zv ++ nl ++ "END" ++ nl ++ nl /\
    data_stream (commit (end_ s2)) = "" /\
    stdout (commit (commit (end_ s2))) = stdout (commit (end_ s2)) ++ nl.
Proof.
  intros Hempty Hc Hd Hu Hv.
  unfold begin. rewrite Hc, (try_int_passed _ _ Hu). cbn [negb].
  eexists. eexists. split; [reflexivity|].
  rewrite (set_appends _ id v zv); [|exact Hd | exact Hv].
  split; [reflexivity|].
  unfold commit, end_, _line.
  cbn [data_stream stdout set_data_stream set_stdout line_params].
  rewrite Hempty. repeat split. flatten.
Qed.

(** X11.  What [_line] writes for a parameter is never empty, and it has a
    space only between two single quotes, so that a parameter makes one
    token of the statement. *)
Theorem field_is_one_token (p : value) :
  field p <> "" /\
  (has_space (field p) = true -> field p = "'" ++ str p ++ "'").
Proof.
  unfold field.
  destruct (str p) as [|c t] eqn:E; cbn [String.length Nat.eqb].
  - cbn. split; [discriminate | discriminate].
  - destruct (has_space (String c t)) eqn:H.
    + split; [discriminate | reflexivity].
    + split; [discriminate | congruence].
Qed.

End EncoderMore.

Section EncoderMoreExamples.
Import Py Base Trace.

Lemma registered_ids_are_accepted_witness :
  (exists s'', begin (after (begin (chart Demo.service "cpu" "" "" "" "" "" "line"
                                      (VInt 1) (VInt 1)) "mem" (VInt 0)))
                 "cpu" (VStr " 7 ") = Returns true s'') /\
  (exists s'', set (end_ (after (dimension Demo.service "user" None "absolute"
                                   (VInt 1) (VInt 1) false)))
                 "user" (VStr " 7 ") = Returns true s'').
Proof.
  split.
  - apply (proj1 (registered_ids_are_accepted Demo.service
                    (after (begin (chart Demo.service "cpu" "" "" "" "" "" "line"
                                     (VInt 1) (VInt 1)) "mem" (VInt 0)))
                    "cpu" (VStr " 7 ") 7 eq_refl)
             "" "" "" "" "" "line" (VInt 1) (VInt 1)).
    apply grows_begin.
  - apply (proj2 (registered_ids_are_accepted Demo.service
                    (end_ (after (dimension Demo.service "user" None "absolute"
                                    (VInt 1) (VInt 1) false)))
                    "user" (VStr " 7 ") 7 eq_refl)
             None "absolute" (VInt 1) (VInt 1) false
             (after (dimension Demo.service "user" None "absolute" (VInt 1) (VInt 1) false))).
    + reflexivity.
    + apply grows_line.
Defined.

Lemma data_set_is_written_witness :
  exists s1 s2,
    begin (commit Demo.registered) "cpu" (VInt 1000000) = Returns true s1 /\
    set s1 "user" (VStr "42") = Returns true s2 /\
    stdout (commit (end_ s2)) =
      stdout (commit Demo.registered) ++ "BEGIN " ++ field (VStr "cpu") ++ " " ++
      field (VInt 1000000) ++ nl ++
      "SET " ++ field (VStr "user") ++ " = " ++ str_of_Z 42 ++ nl ++ "END" ++ nl ++ nl /\
    data_stream (commit (end_ s2)) = "" /\
    stdout (commit (commit (end_ s2))) = stdout (commit (end_ s2)) ++ nl.
Proof.
  apply (data_set_is_written (commit Demo.registered) "cpu" "user"
           (VInt 1000000) (VStr "42") 1000000 42); reflexivity.
Defined.

Lemma field_is_one_token_witness :
  field (VStr "has space") = "'" ++ str (VStr "has space") ++ "'".
Proof.
  apply (proj2 (field_is_one_token (VStr "has space"))). reflexivity.
Defined.

End EncoderMoreExamples.

(** ** The definitions and the charts of UrlService *)

Section DerivationMore.
Import Py Url Derived.

Lemma dict_append_set (n : string) (x : string) (v : list string) :
  forall d : dict (list string),
  dict_append n x (dict_set n v d) = dict_set n (v ++ [x])%list d.
Proof.
  induction d as [|[k l] d IH]; cbn.
  - now rewrite String.eqb_refl.
  - destruct (String.eqb n k) eqn:E; cbn; rewrite E; [reflexivity | now rewrite IH].
Qed.

Lemma lines_append_set (n : string) (ls : list Line) :
  forall (v : list string) (d : dict (list string)),
  fold_left (fun d line => dict_append n (line_name line) d) ls (dict_set n v d) =
  dict_set n (v ++ map line_name ls)%list d.
Proof.
  induction ls as [|l ls IH]; intros v d; cbn [fold_left map].
  - now rewrite app_nil_r.
  - rewrite dict_append_set, IH, <- app_assoc. reflexivity.
Qed.

Lemma build_is_assign (table : dict Chart) (names : list string) :
  forall defs, build_definitions table names defs = assign_definitions table names defs.
Proof.
  unfold assign_definitions.
  induction names as [|n names IH]; intros defs; cbn [build_definitions fold_left].
  - reflexivity.
  - destruct (lookup n table) as [c|]; [|apply IH].
    rewrite lines_append_set. cbn [List.app]. apply IH.
Qed.

Lemma create_definitions (s : UrlService) (data : dataset) :
  definitions (after (create s data)) =
    build_definitions (charts s) (order s) (definitions s) /\
  charts (after (create s data)) = charts s /\
  order (after (create s data)) = order s.
Proof.
  unfold create. destruct data as [d|]; [|cbn; auto].
  destruct (emit_charts _ d (order _) 0 "") as [[idx ds]|e]; [|cbn; auto].
  destruct (idx =? 0); cbn; auto.
Qed.

Lemma dict_set_same {V : Type} (n : string) (v : V) : forall d : dict V,
  lookup n d = Some v -> dict_set n v d = d.
Proof.
  induction d as [|[k v0] d IH]; cbn; [discriminate|].
  destruct (String.eqb n k) eqn:E.
  - apply String.eqb_eq in E. subst k. now intros [= ->].
  - intros H. now rewrite IH.
Qed.

Lemma assign_fixed (table : dict Chart) (names : list string) (d : dict (list string)) :
  (forall n c, In n names -> lookup n table = Some c ->
               lookup n d = Some (map line_name (lines c))) ->
  assign_definitions table names d = d.
Proof.
  unfold assign_definitions.
  induction names as [|n names IH]; intros H; cbn [fold_left]; [reflexivity|].
  destruct (lookup n table) as [c|] eqn:E.
  - rewrite (dict_set_same n _ d (H n c (or_introl eq_refl) E)).
    apply IH. intros n' c' Hin. apply H. now right.
  - apply IH. intros n' c' Hin. apply H. now right.
Qed.

Lemma keys_dict_set {V : Type} (n k : string) (v : V) : forall d : dict V,
  In k (map fst (dict_set n v d)) -> k = n \/ In k (map fst d).
Proof.
  induction d as [|[k0 v0] d IH]; cbn.
  - intros [H|[]]. now left.
  - destruct (String.eqb n k0); cbn; [tauto|].
    intros [H|H]; [tauto|]. destruct (IH H); tauto.
Qed.

Lemma nodup_dict_set {V : Type} (n : string) (v : V) : forall d : dict V,
  NoDup (map fst d) -> NoDup (map fst (dict_set n v d)).
Proof.
  induction d as [|[k0 v0] d IH]; cbn; intros H.
  - constructor; [intros [] | constructor].
  - inversion H as [|x l Hnot Hrest]; subst.
    destruct (String.eqb n k0) eqn:E; cbn.
    + constructor; assumption.
    + constructor; [|apply IH; exact Hrest].
      intros Hin. destruct (keys_dict_set n k0 v d Hin) as [->|Hin'].
      * now rewrite String.eqb_refl in E.
      * contradiction.
Qed.

(** X12.  The two nested loops at the start of [create] come to one
    assignment per chart that is in [order] and in the table:
    [definitions[name]] is the list of the names of its lines, in place if
    the key was there and at the end if not. *)
Theorem definitions_are_assigned (s : UrlService) (data : dataset) :
  definitions (after (create s data)) =
  assign_definitions (charts s) (order s) (definitions s).
Proof.
  rewrite (proj1 (create_definitions s data)). apply build_is_assign.
Qed.

(** X13.  A second [create] leaves [definitions] as the first one made
    them, whatever the two datasets are: the lists are made anew, not
    extended. *)
Theorem create_twice_same_definitions (s : UrlService) (data data' : dataset) :
  definitions (after (create (after (create s data)) data')) =
  definitions (after (create s data)).
Proof.
  destruct (create_definitions s data) as (Hd & Hc & Ho).
  destruct (create_definitions (after (create s data)) data') as (Hd' & _).
  rewrite Hd', Hc, Ho, build_is_assign.
  apply assign_fixed. intros n c Hin Hn.
  rewrite Hd. apply build_definitions_lookup; [exact Hn | now left].
Qed.

(** X14.  [create] leaves alone the entries of [definitions] for names that
    are not in [order] or not in the table, and it keeps the keys of
    [definitions] distinct. *)
Theorem create_keeps_other_definitions (s : UrlService) (data : dataset) :
  (forall n, ~ In n (order s) \/ lookup n (charts s) = None ->
             lookup n (definitions (after (create s data))) = lookup n (definitions s)) /\
  (NoDup (map fst (definitions s)) ->
   NoDup (map fst (definitions (after (create s data))))).
Proof.
  rewrite (proj1 (create_definitions s data)), build_is_assign.
  unfold assign_definitions. generalize (definitions s) as d.
  induction (order s) as [|n0 names IH]; intros d; cbn [fold_left].
  - split; auto.
  - destruct (IH (match lookup n0 (charts s) with
                  | Some c => dict_set n0 (map line_name (lines c)) d
                  | None => d
                  end)) as (IH1 & IH2).
    split.
    + intros n Hn. rewrite IH1.
      * destruct (lookup n0 (charts s)) as [c|] eqn:E; [|reflexivity].
        rewrite lookup_dict_set.
        destruct (String.eqb n n0) eqn:En; [|reflexivity].
        apply String.eqb_eq in En. subst n0.
        destruct Hn as [Hn|Hn]; [exfalso; apply Hn; now left | congruence].
      * destruct Hn as [Hn|Hn]; [left; intros Hin; apply Hn; now right | now right].
    + intros Hd. apply IH2.
      destruct (lookup n0 (charts s)); [apply nodup_dict_set|]; exact Hd.
Qed.

End DerivationMore.

Section CreateMore.
Import Py Url Derived.

Lemma add_dimension_grows (d : dict Z) (acc : string) (l : Line) :
  (String.length acc <= String.length (add_dimension d acc l))%nat.
Proof.
  unfold add_dimension. destruct (has_key (line_name l) d); [rewrite length_append|]; lia.
Qed.

Lemma content_grows (d : dict Z) (ls : list Line) : forall acc,
  (String.length acc <= String.length (fold_left (add_dimension d) ls acc))%nat.
Proof.
  induction ls as [|l ls IH]; intros acc; cbn [fold_left]; [lia|].
  pose proof (add_dimension_grows d acc l). pose proof (IH (add_dimension d acc l)). lia.
Qed.

Lemma content_present (d : dict Z) (ls : list Line) : forall acc,
  existsb (fun line => has_key (line_name line) d) ls = true ->
  (String.length acc < String.length (fold_left (add_dimension d) ls acc))%nat.
Proof.
  induction ls as [|l ls IH]; intros acc H; cbn [existsb fold_left] in *; [discriminate|].
  destruct (has_key (line_name l) d) eqn:E.
  - pose proof (content_grows d ls (add_dimension d acc l)) as G.
    unfold add_dimension in *. rewrite E in *.
    rewrite !length_append in G. change (String.length nl) with 1%nat in G. lia.
  - pose proof (add_dimension_grows d acc l). pose proof (IH (add_dimension d acc l) H). lia.
Qed.

Lemma content_absent (d : dict Z) (ls : list Line) : forall acc,
  existsb (fun line => has_key (line_name line) d) ls = false ->
  fold_left (add_dimension d) ls acc = acc.
Proof.
  induction ls as [|l ls IH]; intros acc H; cbn [existsb fold_left] in *; [reflexivity|].
  apply orb_false_iff in H. destruct H as (E & H).
  unfold add_dimension at 2. rewrite E. apply IH. exact H.
Qed.

(** The test of the second loop of [create]. *)
Lemma content_test (d : dict Z) (c : Chart) :
  (0 <? String.length (chart_content d (lines c)))%nat = matches d c.
Proof.
  unfold chart_content, matches.
  destruct (existsb _ (lines c)) eqn:E.
  - pose proof (content_present d (lines c) "" E) as L. apply Nat.ltb_lt. cbn in L. lia.
  - now rewrite (content_absent d (lines c) "" E).
Qed.

(** The second loop of [create] when every name is in the table: the
    counter has moved exactly when a chart had a line in the dataset. *)
Lemma emit_charts_count (s : UrlService) (d : dict Z) (names : list string) :
  forall (idx : Z) (data_stream : string),
  (forall n, In n names -> lookup n (charts s) <> None) ->
  exists idx' data_stream',
    emit_charts s d names idx data_stream = Ok (idx', data_stream') /\
    idx <= idx' /\
    ((idx' =? idx) =
     negb (existsb (fun n => match lookup n (charts s) with
                             | Some c => matches d c
                             | None => false
                             end) names)) /\
    (idx' = idx -> data_stream' = data_stream).
Proof.
  induction names as [|n names IH]; intros idx ds H; cbn [emit_charts existsb].
  - exists idx, ds. rewrite Z.eqb_refl. repeat split; auto; lia.
  - destruct (lookup n (charts s)) as [c|] eqn:E;
      [|exfalso; apply (H n); [now left | exact E]].
    assert (H' : forall n', In n' names -> lookup n' (charts s) <> None)
      by (intros n' Hin; apply H; now right).
    rewrite content_test.
    destruct (matches d c).
    + match goal with |- context [emit_charts s d names (idx + 1) ?x] =>
        destruct (IH (idx + 1) x H') as (idx' & ds' & He & Hle & _) end.
      exists idx', ds'. rewrite He. repeat split; [lia | | lia].
      cbn. apply Z.eqb_neq. lia.
    + destruct (IH idx ds H') as (idx' & ds' & He & Hle & Hz & Hs).
      exists idx', ds'. rewrite He. repeat split; auto.
Qed.

(** X15.  When every name of [order] is in the table and
    [_formatted_data()] returns a dataset, [create] returns True exactly
    when some chart of [order] has a line whose name is a key of the
    dataset; when none has, it prints an empty line only. *)
Theorem create_succeeds_iff_a_chart_matches (s : UrlService) (d : dict Z) :
  (forall n, In n (order s) -> lookup n (charts s) <> None) ->
  exists s', create s (Some d) = Returns (some_chart_matches s d) s' /\
             (some_chart_matches s d = false -> stdout s' = stdout s ++ nl).
Proof.
  intros H. unfold create, some_chart_matches.
  set (s0 := set_definitions s _).
  destruct (emit_charts_count s0 d (order s0) 0 "" H) as (idx & ds & He & Hle & Hz & Hs).
  rewrite He. unfold s0 in Hz. cbn [charts order set_definitions] in Hz.
  rewrite Hz.
  destruct (existsb _ (order s)); cbn [negb] in *.
  - eexists. split; [reflexivity | discriminate].
  - eexists. split; [reflexivity|]. intros _.
    apply Z.eqb_eq in Hz. rewrite (Hs Hz). reflexivity.
Qed.

Lemma add_block_absent (s : UrlService) (interval : Z) (d : dict Z)
    (entries : list (string * list string)) : forall ds,
  (forall chart dims dim, In (chart, dims) entries -> In dim dims ->
                          has_key dim d = false) ->
  fold_left (add_block s interval d) entries ds = ds.
Proof.
  induction entries as [|[chart dims] entries IH]; intros ds H; cbn [fold_left];
    [reflexivity|].
  assert (E : add_block s interval d ds (chart, dims) = ds).
  { unfold add_block, chart_values.
    rewrite (values_absent d dims "");
      [reflexivity | intros dim Hin; apply (H chart dims dim); [now left | exact Hin]]. }
  rewrite E. apply IH. intros c ds' dim Hin. apply (H c ds' dim). now right.
Qed.

(** X16.  [update] with a dataset that has none of the dimensions of
    [definitions] (so with no definitions at all, or with an empty dataset)
    returns True and prints an empty line only; with None it returns False
    and prints nothing.  In no case does it change [definitions]. *)
Theorem update_without_values (s : UrlService) (interval : Z) (d : dict Z) :
  (forall chart dims dim, In (chart, dims) (definitions s) -> In dim dims ->
                          has_key dim d = false) ->
  update s interval (Some d) = Returns true (print s "") /\
  update s interval None = Returns false s /\
  definitions (print s "") = definitions s.
Proof.
  intros H. unfold update. rewrite (add_block_absent s interval d _ "" H). auto.
Qed.

(** X17.  UrlService as it is, with the [_formatted_data] that returns the
    empty dict: [check()] returns True, but [create()] returns False once
    every name of [order] is in the table, having printed an empty line, and
    [update()] prints an empty line and returns True. *)
Theorem base_class_checks_but_creates_nothing
    (s : UrlService) (n : value) (configuration : dict value) (url : string)
    (interval : Z) :
  (forall k, In k (order s) -> lookup k (charts s) <> None) ->
  snd (UrlBase.check n configuration url UrlBase._formatted_data) = true /\
  (exists s', create s UrlBase._formatted_data = Returns false s' /\
              stdout s' = stdout s ++ nl) /\
  update s interval UrlBase._formatted_data = Returns true (print s "").
Proof.
  intros H. split; [reflexivity|]. split.
  - unfold UrlBase._formatted_data, create.
    set (s0 := set_definitions s _).
    destruct (emit_charts_count s0 [] (order s0) 0 "" H) as (idx & ds & He & Hle & Hz & Hs).
    rewrite He.
    assert (N : existsb (fun k => match lookup k (charts s0) with
                                  | Some c => matches [] c
                                  | None => false
                                  end) (order s0) = false).
    { clear. induction (order s0) as [|k l IH]; cbn [existsb]; [reflexivity|].
      rewrite IH. destruct (lookup k (charts s0)) as [c|]; [|reflexivity].
      unfold matches. induction (lines c); cbn; auto. }
    rewrite N in Hz. cbn [negb] in Hz. rewrite Hz.
    apply Z.eqb_eq in Hz. rewrite (Hs Hz).
    eexists. split; reflexivity.
  - unfold UrlBase._formatted_data, update.
    rewrite add_block_absent; [reflexivity | reflexivity].
Qed.

(** X18.  The name that [check()] leaves: None and the text "None" become
    'local', a number becomes its decimal text, any other text is kept; so
    the name is never the text "None". *)
Theorem checked_name_is_not_none (n : value) :
  UrlBase.checked_name VNone = "local" /\
  UrlBase.checked_name (VStr "None") = "local" /\
  (forall z, UrlBase.checked_name (VInt z) = str_of_Z z) /\
  (forall t, n = VStr t -> t <> "None" -> UrlBase.checked_name n = t) /\
  UrlBase.checked_name n <> "None".
Proof.
  split; [reflexivity|]. split; [reflexivity|]. split; [reflexivity|]. split.
  - intros t -> Ht. cbn. apply String.eqb_neq in Ht. now rewrite Ht.
  - destruct n as [z|t|]; cbn; [|destruct (String.eqb t "None") eqn:E|discriminate].
    + unfold str_of_Z, NilZero.string_of_int.
      destruct (Z.to_int z) as [u|u]; [|discriminate].
      destruct u; discriminate.
    + discriminate.
    + apply String.eqb_neq. exact E.
Qed.

End CreateMore.

Section DerivationMoreExamples.
Import Py Url Derived.

Lemma create_keeps_other_definitions_witness :
  lookup "uptime"
    (definitions (after (create (set_definitions Demo.collector [("uptime", ["seconds"])])
                           (Some [("m1", 5)]))))
  = lookup "uptime" (definitions (set_definitions Demo.collector [("uptime", ["seconds"])]))
  /\
  NoDup (map fst (definitions
                    (after (create (set_definitions Demo.collector [("uptime", ["seconds"])])
                              (Some [("m1", 5)]))))).
Proof.
  destruct (create_keeps_other_definitions
              (set_definitions Demo.collector [("uptime", ["seconds"])])
              (Some [("m1", 5)])) as (Hother & Hkeys).
  split.
  - apply Hother. left. cbn. intros [H|[]]. discriminate.
  - apply Hkeys. cbn. constructor; [intros [] | constructor].
Defined.

Lemma create_succeeds_iff_a_chart_matches_witness :
  (exists s', create Demo.collector (Some [("m1", 5)])
              = Returns (some_chart_matches Demo.collector [("m1", 5)]) s' /\
              (some_chart_matches Demo.collector [("m1", 5)] = false ->
               stdout s' = stdout Demo.collector ++ nl)) /\
  (exists s', create Demo.collector (Some [("m3", 5)])
              = Returns (some_chart_matches Demo.collector [("m3", 5)]) s' /\
              (some_chart_matches Demo.collector [("m3", 5)] = false ->
               stdout s' = stdout Demo.collector ++ nl)).
Proof.
  split.
  - apply (create_succeeds_iff_a_chart_matches Demo.collector [("m1", 5)]).
    intros n [<-|[]]. discriminate.
  - apply (create_succeeds_iff_a_chart_matches Demo.collector [("m3", 5)]).
    intros n [<-|[]]. discriminate.
Defined.

Lemma update_without_values_witness :
  update (set_definitions Demo.collector [("requests", ["m1"; "m2"])]) 1000000
    (Some [("m3", 7)])
  = Returns true (print (set_definitions Demo.collector [("requests", ["m1"; "m2"])]) "") /\
  update (set_definitions Demo.collector [("requests", ["m1"; "m2"])]) 1000000 None
  = Returns false (set_definitions Demo.collector [("requests", ["m1"; "m2"])]) /\
  definitions (print (set_definitions Demo.collector [("requests", ["m1"; "m2"])]) "")
  = definitions (set_definitions Demo.collector [("requests", ["m1"; "m2"])]).
Proof.
  apply (update_without_values
           (set_definitions Demo.collector [("requests", ["m1"; "m2"])]) 1000000
           [("m3", 7)]).
  intros chart dims dim [E|[]] Hdim. injection E as <- <-.
  destruct Hdim as [<-|[<-|[]]]; reflexivity.
Defined.

Lemma base_class_checks_but_creates_nothing_witness :
  snd (UrlBase.check VNone [("url", VStr "http://localhost/status")] ""
         UrlBase._formatted_data) = true /\
  (exists s', create Demo.collector UrlBase._formatted_data = Returns false s' /\
              stdout s' = stdout Demo.collector ++ nl) /\
  update Demo.collector 1000000 UrlBase._formatted_data
  = Returns true (print Demo.collector "").
Proof.
  apply (base_class_checks_but_creates_nothing Demo.collector VNone
           [("url", VStr "http://localhost/status")] "" 1000000).
  intros n [<-|[]]. discriminate.
Defined.

Lemma checked_name_is_not_none_witness :
  UrlBase.checked_name (VStr "web") = "web".
Proof.
  apply (proj1 (proj2 (proj2 (proj2 (checked_name_is_not_none (VStr "web")))))
           "web" eq_refl).
  discriminate.
Defined.

End DerivationMoreExamples.

(** ** The configuration *)

Section ConfigMore.
Import Py Url Config.

Lemma lookup_remove {V : Type} (k k' : string) : forall d : dict V,
  lookup k (remove k' d) = if String.eqb k k' then None else lookup k d.
Proof.
  induction d as [|[k0 v0] d IH]; cbn.
  - destruct (String.eqb k k'); reflexivity.
  - destruct (String.eqb k' k0) eqn:E0.
    + rewrite IH. destruct (String.eqb k k') eqn:E; [reflexivity|].
      apply String.eqb_eq in E0. subst k0. now rewrite E.
    + cbn. rewrite IH. destruct (String.eqb k k0) eqn:E1; [|reflexivity].
      apply String.eqb_eq in E1. subst k0.
      now rewrite String.eqb_sym, E0.
Qed.

(** What is left of the configuration after the optional pop. *)
Lemma lookup_after_override (config : dict value) (k : string) :
  lookup k (match pop "override_name" config with
            | Ok (v, rest) => rest
            | Err _ => config
            end) =
  if String.eqb k "override_name" then None else lookup k config.
Proof.
  unfold pop. destruct (lookup "override_name" config) as [v|] eqn:E.
  - apply lookup_remove.
  - destruct (String.eqb k "override_name") eqn:Ek; [|reflexivity].
    apply String.eqb_eq in Ek. now subst k.
Qed.

(** X19.  [_extract_base_config] with the three required keys present and
    values that [int] accepts: the attributes are the integers,
    [retries_left] starts equal to [retries], [override_name] is the value
    of the key if there is one, and the configuration that is kept has lost
    the four keys and holds every other key with its value. *)
Theorem config_is_extracted (config : dict value) (u p r : value) (zu zp zr : Z) :
  lookup "update_every" config = Some u -> int u = Ok zu ->
  lookup "priority" config = Some p -> int p = Ok zp ->
  lookup "retries" config = Some r -> int r = Ok zr ->
  exists cfg,
    _extract_base_config config = Ok cfg /\
    update_every cfg = zu /\ priority cfg = zp /\
    retries cfg = zr /\ retries_left cfg = zr /\
    override_name cfg = lookup "override_name" config /\
    forall k, lookup k (configuration cfg) =
              if mem k consumed then None else lookup k config.
Proof.
  intros Hu Hzu Hp Hzp Hr Hzr.
  unfold _extract_base_config.
  pose proof (lookup_after_override config) as L.
  assert (O : (match pop "override_name" config with
               | Ok (v, _) => Some v
               | Err _ => None
               end) = lookup "override_name" config).
  { unfold pop. destruct (lookup "override_name" config); reflexivity. }
  destruct (pop "override_name" config) as [[v rest]|e];
    [set (c0 := rest) in * | set (c0 := config) in *].
  all: unfold pop at 1; rewrite (L "update_every"); cbn [String.eqb Ascii.eqb Bool.eqb];
    rewrite Hu, Hzu.
  all: unfold pop at 1; rewrite lookup_remove, (L "priority");
    cbn [String.eqb Ascii.eqb Bool.eqb]; rewrite Hp, Hzp.
  all: unfold pop at 1; rewrite !lookup_remove, (L "retries");
    cbn [String.eqb Ascii.eqb Bool.eqb]; rewrite Hr, Hzr.
  all: eexists; split; [reflexivity|]; cbn [update_every priority retries retries_left
                                             override_name configuration].
  all: repeat split; try (symmetry; exact O); try exact O.
  all: intros k; rewrite !lookup_remove, (L k); unfold consumed, mem; cbn [existsb].
  all: destruct (String.eqb k "override_name"), (String.eqb k "update_every"),
         (String.eqb k "priority"), (String.eqb k "retries"); reflexivity.
Qed.

(** X20.  A configuration that lacks one of the three required keys makes
    no service: the KeyError of [pop] (or an earlier error of [int]) leaves
    [_extract_base_config]; when update_every itself is missing it is the
    KeyError for update_every. *)
Theorem config_needs_required_keys (config : dict value) :
  (lookup "update_every" config = None ->
   _extract_base_config config = Err (KeyError "update_every")) /\
  (forall k, In k ["update_every"; "priority"; "retries"] ->
             lookup k config = None ->
             exists e, _extract_base_config config = Err e).
Proof.
  pose proof (lookup_after_override config) as L.
  assert (U : forall k, In k ["update_every"; "priority"; "retries"] ->
              lookup k (match pop "override_name" config with
                        | Ok (v, rest) => rest
                        | Err _ => config
                        end) = lookup k config).
  { intros k Hk. rewrite L.
    destruct Hk as [<-|[<-|[<-|[]]]]; reflexivity. }
  split.
  - intros H. unfold _extract_base_config.
    pose proof (U "update_every" ltac:(cbn; auto)) as U1. rewrite H in U1.
    destruct (pop "override_name" config) as [[v rest]|e];
      unfold pop at 1; try rewrite U1; try rewrite H; reflexivity.
  - intros k Hk H. unfold _extract_base_config.
    pose proof (U "update_every" ltac:(cbn; auto)) as U1.
    pose proof (U "priority" ltac:(cbn; auto)) as U2.
    pose proof (U "retries" ltac:(cbn; auto)) as U3.
    destruct (pop "override_name" config) as [[v rest]|e].
    all: unfold pop at 1; try rewrite U1;
      destruct (lookup "update_every" config) as [u|] eqn:Eu; [|eexists; reflexivity];
      destruct (int u) as [zu|eu]; [|eexists; reflexivity].
    all: unfold pop at 1; rewrite lookup_remove; try rewrite U2; cbn [String.eqb Ascii.eqb Bool.eqb];
      destruct (lookup "priority" config) as [p|] eqn:Ep; [|eexists; reflexivity];
      destruct (int p) as [zp|ep]; [|eexists; reflexivity].
    all: unfold pop at 1; rewrite !lookup_remove; try rewrite U3; cbn [String.eqb Ascii.eqb Bool.eqb];
      destruct (lookup "retries" config) as [r|] eqn:Er; [|eexists; reflexivity].
    all: exfalso; destruct Hk as [<-|[<-|[<-|[]]]]; congruence.
Qed.

End ConfigMore.

Section ConfigExamples.
Import Py Url Config.

Lemma config_is_extracted_witness :
  exists cfg,
    _extract_base_config
      [("url", VStr "http://localhost/status"); ("update_every", VStr "2");
       ("priority", VInt 60000); ("retries", VInt 5); ("override_name", VStr "web")]
    = Ok cfg /\
    update_every cfg = 2 /\ priority cfg = 60000 /\
    retries cfg = 5 /\ retries_left cfg = 5 /\
    override_name cfg =
      lookup "override_name"
        [("url", VStr "http://localhost/status"); ("update_every", VStr "2");
         ("priority", VInt 60000); ("retries", VInt 5); ("override_name", VStr "web")] /\
    forall k, lookup k (configuration cfg) =
              if mem k consumed then None
              else lookup k
                     [("url", VStr "http://localhost/status"); ("update_every", VStr "2");
                      ("priority", VInt 60000); ("retries", VInt 5);
                      ("override_name", VStr "web")].
Proof.
  apply (config_is_extracted
           [("url", VStr "http://localhost/status"); ("update_every", VStr "2");
            ("priority", VInt 60000); ("retries", VInt 5); ("override_name", VStr "web")]
           (VStr "2") (VInt 60000) (VInt 5) 2 60000 5); reflexivity.
Defined.

Lemma config_needs_required_keys_witness :
  _extract_base_config [("priority", VInt 60000); ("retries", VInt 5)]
    = Err (KeyError "update_every") /\
  exists e, _extract_base_config [("update_every", VInt 1); ("priority", VInt 60000)]
            = Err e.
Proof.
  split.
  - apply (proj1 (config_needs_required_keys [("priority", VInt 60000); ("retries", VInt 5)])).
    reflexivity.
  - apply (proj2 (config_needs_required_keys
                    [("update_every", VInt 1); ("priority", VInt 60000)]) "retries").
    + cbn. auto.
    + reflexivity.
Defined.

End ConfigExamples.

(** * The charts of UrlService, statement by statement (C2, C10) *)

Section DerivationStatements.
Import Py Url Derived Statements.

Lemma content_join (d : dict Z) (ls : list Line) : forall acc,
  fold_left (add_dimension d) ls acc = acc ++ join (map (dimension_line d) ls).
Proof.
  induction ls as [|l ls IH]; intros acc; cbn [fold_left map join].
  - now rewrite append_nil_r.
  - rewrite IH. unfold add_dimension, dimension_line.
    destruct (has_key (line_name l) d); [now rewrite !append_assoc | reflexivity].
Qed.

Lemma values_join (d : dict Z) (dims : list string) : forall acc,
  fold_left (add_value d) dims acc = acc ++ join (map (set_line d) dims).
Proof.
  induction dims as [|dim dims IH]; intros acc; cbn [fold_left map join].
  - now rewrite append_nil_r.
  - rewrite IH. unfold add_value, set_line.
    destruct (lookup dim d); [now rewrite !append_assoc | reflexivity].
Qed.

(** The body of the loop of [update] adds the block of the entry. *)
Lemma add_block_is_block (s : UrlService) (interval : Z) (d : dict Z)
    (ds : string) (entry : string * list string) :
  add_block s interval d ds entry = ds ++ block s interval d entry.
Proof.
  destruct entry as [chart dims]. unfold add_block, block, chart_values.
  destruct (existsb (fun dim => has_key dim d) dims) eqn:E.
  - assert (P : exists dim, In dim dims /\ has_key dim d = true).
    { apply existsb_exists in E. exact E. }
    pose proof (values_present d dims "" P) as L.
    destruct (String.length (fold_left (add_value d) dims "")) eqn:El;
      [try rewrite El in L; cbn in L; lia|].
    cbn [Nat.eqb negb]. rewrite values_join.
    repeat first [rewrite append_assoc | progress cbn [append]]. reflexivity.
  - assert (A : forall dim, In dim dims -> has_key dim d = false).
    { intros dim Hin. destruct (has_key dim d) eqn:Ek; [|reflexivity].
      assert (X : existsb (fun dim => has_key dim d) dims = true)
        by (apply existsb_exists; exists dim; auto).
      congruence. }
    rewrite (values_absent d dims "" A). cbn. now rewrite append_nil_r.
Qed.

Lemma blocks_of_definitions (s : UrlService) (interval : Z) (d : dict Z)
    (entries : list (string * list string)) : forall ds,
  fold_left (add_block s interval d) entries ds =
  ds ++ join (map (block s interval d) entries).
Proof.
  induction entries as [|e entries IH]; intros ds; cbn [fold_left map join].
  - now rewrite append_nil_r.
  - rewrite IH, add_block_is_block. now rewrite append_assoc.
Qed.

(** The second loop of [create] when every name is in the table. *)
Lemma emit_charts_statements (s : UrlService) (d : dict Z) (names : list string) :
  forall (idx : Z) (ds : string),
  (forall n, In n names -> lookup n (charts s) <> None) ->
  exists idx',
    emit_charts s d names idx ds = Ok (idx', ds ++ chart_statements s d names idx) /\
    (idx' =? idx) =
      negb (existsb (fun n => match lookup n (charts s) with
                              | Some c => matches d c
                              | None => false
                              end) names) /\
    idx <= idx'.
Proof.
  induction names as [|n names IH]; intros idx ds H;
    cbn [emit_charts chart_statements existsb].
  - exists idx. rewrite Z.eqb_refl, append_nil_r. repeat split. lia.
  - destruct (lookup n (charts s)) as [c|] eqn:E;
      [|exfalso; apply (H n); [now left | exact E]].
    assert (H' : forall n', In n' names -> lookup n' (charts s) <> None)
      by (intros n' Hin; apply H; now right).
    rewrite content_test.
    destruct (matches d c).
    + match goal with |- context [emit_charts s d names (idx + 1) ?x] =>
        destruct (IH (idx + 1) x H') as (idx' & He & _ & Hle) end.
      exists idx'. rewrite He. unfold chart_content. rewrite content_join.
      split; [f_equal; f_equal;
              repeat first [rewrite append_assoc | progress cbn [append]]; reflexivity|].
      split; [cbn; apply Z.eqb_neq; lia | lia].
    + destruct (IH idx ds H') as (idx' & He & Hz & Hle).
      exists idx'. rewrite He. auto.
Qed.

Lemma chart_statements_definitions (s : UrlService) (v : dict (list string))
    (d : dict Z) (names : list string) : forall idx,
  chart_statements (set_definitions s v) d names idx = chart_statements s d names idx.
Proof.
  induction names as [|n names IH]; intros idx;
    cbn [chart_statements charts module name priority update_every set_definitions].
  - reflexivity.
  - destruct (lookup n (charts s)) as [c|]; [|reflexivity].
    now rewrite !IH.
Qed.

(** The second loop of [create] stops at the first name that the table
    lacks. *)
Lemma emit_charts_first_missing (s : UrlService) (d : dict Z)
    (before after : list string) (n : string) : forall (idx : Z) (ds : string),
  (forall m, In m before -> lookup m (charts s) <> None) ->
  lookup n (charts s) = None ->
  emit_charts s d (before ++ n :: after) idx ds = Err (KeyError n).
Proof.
  induction before as [|m before IH]; intros idx ds Hb Hn; cbn [emit_charts List.app].
  - now rewrite Hn.
  - destruct (lookup m (charts s)) as [c|] eqn:E;
      [|exfalso; apply (Hb m); [now left | exact E]].
    assert (Hb' : forall m', In m' before -> lookup m' (charts s) <> None)
      by (intros m' Hin; apply Hb; now right).
    destruct (0 <? String.length (chart_content d (lines c)))%nat; apply IH; assumption.
Qed.

(** A list with a name that the table lacks, cut at the first such name. *)
Lemma first_missing {V : Type} (table : dict V) (names : list string) :
  (exists n, In n names /\ lookup n table = None) ->
  exists before n after,
    names = (before ++ n :: after)%list /\
    (forall m, In m before -> lookup m table <> None) /\
    lookup n table = None.
Proof.
  induction names as [|m names IH]; intros (n & Hin & Hn); [destruct Hin|].
  destruct (lookup m table) as [v|] eqn:E.
  - destruct IH as (before & n' & after & Hsplit & Hb & Hn').
    + exists n. split; [|exact Hn]. destruct Hin as [->|Hin]; [congruence | exact Hin].
    + exists (m :: before), n', after. rewrite Hsplit.
      split; [reflexivity|]. split; [|exact Hn'].
      intros m' [<-|Hin']; [congruence | now apply Hb].
  - exists [], m, names. split; [reflexivity|]. split; [intros m' [] | exact E].
Qed.

(** C2 (amended).  [create] puts every declared dimension of every chart
    that is in [order] and in the table into [definitions], whatever the
    dataset holds; the dataset only decides what is printed: for every chart
    of [order] with a line in the dataset, the CHART statement and the
    DIMENSION statements of its lines that are in the dataset.  [update]
    prints, for every entry of [definitions] in turn, a block with the SET
    statements of its dimensions that are in the dataset of that cycle, and
    nothing for an entry with no dimension in it.  For the chart that
    declares m1 and m2: with the dataset m1 = 5, [create] prints the chart
    with the dimension m1 alone, and [update] with the dataset m2 = 7 then
    prints a block for the chart, with SET m2 = 7. *)
Theorem definitions_hold_declared_dimensions :
  (forall (s : UrlService) (data : dataset) (n : string) (c : Chart),
     In n (order s) ->
     lookup n (charts s) = Some c ->
     lookup n (definitions (after (create s data))) = Some (map line_name (lines c))) /\
  (forall (s : UrlService) (d : dict Z),
     (forall n, In n (order s) -> lookup n (charts s) <> None) ->
     exists s', create s (Some d) = Returns (some_chart_matches s d) s' /\
                stdout s' = stdout s ++ chart_statements s d (order s) 0 ++ nl) /\
  (forall (s : UrlService) (interval : Z) (d : dict Z),
     update s interval (Some d) =
     Returns true (print s (join (map (block s interval d) (definitions s))))) /\
  (forall (s : UrlService) (interval : Z) (d : dict Z) (data_stream chart : string)
          (dims : list string),
     (exists dim, In dim dims /\ has_key dim d = true) ->
     add_block s interval d data_stream (chart, dims) =
     data_stream ++ "BEGIN " ++ module s ++ "_" ++ name s ++ "." ++ chart ++ " " ++
     str_of_Z interval ++ chart_values d dims ++ nl ++ "END" ++ nl) /\
  (forall (s : UrlService) (interval : Z) (d : dict Z) (data_stream chart : string)
          (dims : list string),
     (forall dim, In dim dims -> has_key dim d = false) ->
     add_block s interval d data_stream (chart, dims) = data_stream) /\
  (exists s1 s2,
     create Demo.collector (Some [("m1", 5)]) = Returns true s1 /\
     stdout s1 =
       "CHART example_local.requests '' 'Requests' 'requests/s' requests example.requests line 60000 1"
       ++ nl ++ "DIMENSION m1 first incremental 1 1" ++ nl ++ nl /\
     update s1 1000000 (Some [("m2", 7)]) = Returns true s2 /\
     stdout s2 =
       stdout s1 ++ "BEGIN example_local.requests 1000000" ++ nl ++
       "SET m2 = 7" ++ nl ++ "END" ++ nl ++ nl).
Proof.
  split; [|split; [|split; [|split; [|split]]]].
  - intros s data n c Hin Hc.
    rewrite (proj1 (create_definitions s data)).
    apply build_definitions_lookup; [exact Hc | now left].
  - intros s d H. unfold create, some_chart_matches.
    set (s0 := set_definitions s _).
    destruct (emit_charts_statements s0 d (order s0) 0 "" H) as (idx & He & Hz & _).
    rewrite He. unfold s0 in Hz. cbn [charts order set_definitions] in Hz.
    rewrite Hz.
    unfold s0. rewrite chart_statements_definitions.
    cbn [order set_definitions].
    destruct (existsb _ (order s)); cbn [negb];
      (eexists; split; [reflexivity|]); reflexivity.
  - intros s interval d. unfold update.
    rewrite blocks_of_definitions. reflexivity.
  - intros s interval d ds chart dims H.
    unfold add_block, chart_values.
    pose proof (values_present d dims "" H) as L.
    destruct (String.length (fold_left (add_value d) dims "")) eqn:E;
      [try rewrite E in L; cbn in L; lia|].
    cbn [Nat.eqb negb]. now rewrite !append_assoc.
  - intros s interval d ds chart dims H.
    unfold add_block, chart_values. now rewrite (values_absent d dims "" H).
  - exact collector_output.
Qed.

(** C10 (amended).  When [order] has a name that is not a key of
    [charts] and [_formatted_data()] returns a dataset, KeyError for the
    first such name of [order] leaves [create], and nothing is printed; when
    [_formatted_data()] returns None, [create] returns False before the
    second loop. *)
Theorem create_raises_for_unknown_name (s : UrlService) (d : dict Z) :
  (exists n, In n (order s) /\ lookup n (charts s) = None) ->
  (exists before n after s',
     order s = (before ++ n :: after)%list /\
     (forall m, In m before -> lookup m (charts s) <> None) /\
     lookup n (charts s) = None /\
     create s (Some d) = Raises (KeyError n) s' /\
     stdout s' = stdout s) /\
  (exists s', create s None = Returns false s' /\ stdout s' = stdout s).
Proof.
  intros H. split.
  - destruct (first_missing (charts s) (order s) H) as (before & n & after & Ho & Hb & Hn).
    unfold create.
    set (s0 := set_definitions s _).
    assert (E : emit_charts s0 d (order s0) 0 "" = Err (KeyError n)).
    { unfold s0 at 2. cbn [order set_definitions]. rewrite Ho.
      apply emit_charts_first_missing; assumption. }
    exists before, n, after, s0. rewrite E. auto.
  - eexists. split; reflexivity.
Qed.

End DerivationStatements.

Section DerivationStatementsExamples.
Import Py Url Derived Statements.

Lemma definitions_hold_declared_dimensions_witness :
  lookup "requests"
    (definitions (after (create Demo.collector (Some [("m1", 5)]))))
  = Some (map line_name
            [ {| line_name := "m1"; line_options := "first incremental 1 1" |};
              {| line_name := "m2"; line_options := "second incremental 1 1" |} ])
  /\
  (exists s', create Samples.two_charts (Some [("m1", 5)])
              = Returns (some_chart_matches Samples.two_charts [("m1", 5)]) s' /\
              stdout s' = stdout Samples.two_charts
                          ++ chart_statements Samples.two_charts [("m1", 5)]
                               (order Samples.two_charts) 0 ++ nl)
  /\
  add_block Demo.collector 1000000 [("m2", 7)] "" ("requests", ["m1"; "m2"]) =
    "" ++ "BEGIN " ++ module Demo.collector ++ "_" ++ name Demo.collector ++ "." ++
    "requests" ++ " " ++ str_of_Z 1000000 ++ chart_values [("m2", 7)] ["m1"; "m2"] ++
    nl ++ "END" ++ nl
  /\
  add_block Demo.collector 1000000 [("m3", 7)] "" ("requests", ["m1"; "m2"]) = "".
Proof.
  destruct definitions_hold_declared_dimensions
    as (Hdefs & Hcreate & _ & Hsome & Hnone & _).
  split; [|split; [|split]].
  - apply (Hdefs Demo.collector (Some [("m1", 5)]) "requests"
             {| options := "'' 'Requests' 'requests/s' requests example.requests line";
                lines := [ {| line_name := "m1"; line_options := "first incremental 1 1" |};
                           {| line_name := "m2"; line_options := "second incremental 1 1" |} ] |}).
    + cbn. auto.
    + reflexivity.
  - apply Hcreate. intros n [<-|[<-|[]]]; discriminate.
  - apply Hsome. exists "m2". split; [cbn; auto | reflexivity].
  - apply Hnone. intros dim [<-|[<-|[]]]; reflexivity.
Defined.

(** Two charts, of which the dataset of [create] has only the first: the
    second is not printed by [create], and [update] prints a block for it as
    soon as its dimension is in the dataset. *)
Example unmatched_chart_is_updated :
  exists s1 s2,
    create Samples.two_charts (Some [("m1", 5)]) = Returns true s1 /\
    stdout s1 =
      "CHART example_local.requests '' 'Requests' 'requests/s' requests example.requests line 60000 1"
      ++ nl ++ "DIMENSION m1 first incremental 1 1" ++ nl ++ nl /\
    update s1 1000000 (Some [("m1", 6); ("m2", 7)]) = Returns true s2 /\
    stdout s2 =
      stdout s1 ++
      "BEGIN example_local.requests 1000000" ++ nl ++ "SET m1 = 6" ++ nl ++ "END" ++ nl ++
      "BEGIN example_local.errors 1000000" ++ nl ++ "SET m2 = 7" ++ nl ++ "END" ++ nl ++ nl.
Proof.
  eexists. eexists.
  split; [vm_compute; reflexivity|].
  split; [vm_compute; reflexivity|].
  split; [vm_compute; reflexivity|].
  vm_compute; reflexivity.
Qed.

Lemma create_raises_for_unknown_name_witness :
  (exists before n after s',
     order Samples.two_ghosts = (before ++ n :: after)%list /\
     (forall m, In m before -> lookup m (charts Samples.two_ghosts) <> None) /\
     lookup n (charts Samples.two_ghosts) = None /\
     create Samples.two_ghosts (Some [("m1", 5)]) = Raises (KeyError n) s' /\
     stdout s' = stdout Samples.two_ghosts) /\
  (exists s', create Samples.two_ghosts None = Returns false s' /\
              stdout s' = stdout Samples.two_ghosts).
Proof.
  apply (create_raises_for_unknown_name Samples.two_ghosts [("m1", 5)]).
  exists "ghost2". split; [cbn; auto | reflexivity].
Defined.

(** With two missing names it is the first that is reported. *)
Example first_ghost_is_reported :
  exists s', create Samples.two_ghosts (Some [("m1", 5)]) = Raises (KeyError "ghost1") s'.
Proof. eexists. vm_compute. reflexivity. Qed.

End DerivationStatementsExamples.

(** * Statements that are not written by [_line] (C6) *)

Section RawStatements.
Import Py Url.

(** C6 as it is stated fails: [create] prints the name of a line as it is,
    so that a name with a space in it is not between single quotes. *)
Lemma create_prints_spaced_name_unquoted :
  exists s',
    create Samples.spaced (Some [("has space", 5)]) = Returns true s' /\
    stdout s' =
      "CHART example_local.requests '' 'Requests' 'requests/s' requests example.requests line 60000 1"
      ++ nl ++ "DIMENSION has space first incremental 1 1" ++ nl ++ nl /\
    stdout s' <>
      "CHART example_local.requests '' 'Requests' 'requests/s' requests example.requests line 60000 1"
      ++ nl ++ "DIMENSION 'has space' first incremental 1 1" ++ nl ++ nl.
Proof.
  eexists. split; [vm_compute; reflexivity|].
  split; [vm_compute; reflexivity|].
  vm_compute. discriminate.
Qed.

End RawStatements.

(** * The numbers that [_run_once] prints *)

Section PrintedNumbers.
Import Base.

(** The differences and the products are those of binary64: between the
    clock readings 1.0 s and 1.2 s the run time is 199 ms, and between 0.3 s
    and 1.234 s the interval is 933999 microseconds. *)
Example elapsed_is_float_arithmetic :
  (elapsed 1200000 1000000 1000, elapsed 1234000 300000 1000000,
   elapsed 1000000 300000 1000000, elapsed 300000 1000000 1000)
  = (199, 933999, 700000, -700).
Proof. vm_compute. reflexivity. Qed.

(** What a successful cycle from 1.0 s to 1.2 s writes for a service that
    was started at 0.3 s. *)
Example run_time_chart_of_a_cycle :
  exists s', _run_once Demo.service (Demo.succeeded 1000000 1200000) = Status true s' /\
             stdout s' =
               "BEGIN netdata.plugin_pythond_ 700000" ++ nl ++
               "SET run_time = 199" ++ nl ++ "END" ++ nl.
Proof. eexists. split; [vm_compute; reflexivity | reflexivity]. Qed.

End PrintedNumbers.
